(** * MSK best-practices resource: a shallow embedding of
      [awslabs/aws_msk_mcp_server/resources/best_practices.py]

    The Python module holds a static table [INSTANCE_SPECS], eight numeric
    constants, the calculator [get_cluster_best_practices] and the catalog
    document built by the resource [msk_best_practices].  Python integers
    are unbounded and are modelled by [Z]; dictionaries keep insertion order
    and are modelled by association lists; the one subscript whose key comes
    from the caller ([INSTANCE_SPECS[instance_type]]) is modelled as a
    fallible lookup in a small exception monad. *)

From Stdlib Require Import ZArith List String Ascii Bool Lia.
From Stdlib Require Import DecimalString DecimalZ DecimalPos DecimalFacts.
Import ListNotations.

Set Warnings "-register-all".

#[local] Open Scope string_scope.
#[local] Open Scope Z_scope.

(** ** Python values and the primitives the module uses *)

Module Py.

(** Every float literal of the module is written with exactly one
    fractional digit ([5.0], [1406.2]).  [Flt w t] stands for the literal
    [w.t]; the module never computes with floats, it only formats them. *)
Record float := Flt { float_whole : Z; float_tenth : Z }.

Inductive value :=
| VInt (z : Z)
| VFloat (f : float)
| VStr (s : string)
| VList (l : list value)
| VDict (d : list (string * value)).

Definition dict := list (string * value).

Inductive exn :=
| KeyError (key : string).

Inductive result (A : Type) :=
| Return (a : A)
| Raise (e : exn).
Arguments Return {A} a.
Arguments Raise {A} e.

Definition bind {A B} (m : result A) (k : A -> result B) : result B :=
  match m with
  | Return a => k a
  | Raise e => Raise e
  end.

(** [d.get(k)]: the value bound to [k], if any. *)
Fixpoint get {V} (d : list (string * V)) (k : string) : option V :=
  match d with
  | [] => None
  | (k', v) :: d' => if String.eqb k' k then Some v else get d' k
  end.

(** [k in d]. *)
Definition contains {V} (d : list (string * V)) (k : string) : bool :=
  match get d k with
  | Some _ => true
  | None => false
  end.

(** [d[k]]: raises [KeyError] on a missing key. *)
Definition getitem {V} (d : list (string * V)) (k : string) : result V :=
  match get d k with
  | Some v => Return v
  | None => Raise (KeyError k)
  end.

(** [d.keys()], in insertion order. *)
Definition keys {V} (d : list (string * V)) : list string := map fst d.

(** [s.startswith(p)]. *)
Definition startswith (s p : string) : bool := String.prefix p s.

(** [str(z)], which is also what [f'{z}'] produces for an integer. *)
Definition str (z : Z) : string := NilZero.string_of_int (Z.to_int z).

(** [f'{x}'] for one of the module's float literals: the shortest
    round-tripping representation of such a literal is the literal. *)
Definition str_float (f : float) : string :=
  str (float_whole f) ++ "." ++ str (float_tenth f).

End Py.

Import Py.

Notation "x <- m ;; k" := (bind m (fun x => k))
  (at level 61, m at next level, right associativity).

(** ** Module constants (lines 25-36) *)

Definition RECOMMENDED_CPU_UTILIZATION_PERCENT : Z := 60.
Definition MAX_CPU_UTILIZATION_PERCENT : Z := 70.
Definition STORAGE_UTILIZATION_WARNING_PERCENT : Z := 85.
Definition STORAGE_UTILIZATION_CRITICAL_PERCENT : Z := 90.
Definition RECOMMENDED_REPLICATION_FACTOR : Z := 3.
Definition RECOMMENDED_MIN_INSYNC_REPLICAS : Z := 2.
Definition UNDER_REPLICATED_PARTITIONS_TOLERANCE : Z := 0.
Definition LEADER_IMBALANCE_TOLERANCE_PERCENT : Z := 10.

(** ** The instance-spec table (lines 39-293)

    Each entry of [INSTANCE_SPECS] is a dictionary literal with the same
    nine literal keys, read only through literal subscripts; it is a record
    here, and [spec_dict] gives back the dictionary. *)

Record InstanceSpec := mkSpec {
  vCPU : Z;
  Memory_GB : Z;
  Network_Bandwidth_Gbps : float;
  Ingress_Recommended_MBps : float;
  Ingress_Max_MBps : float;
  Egress_Recommended_MBps : float;
  Egress_Max_MBps : float;
  Partitions_per_Broker_Recommended : Z;
  Partitions_per_Broker_Max : Z
}.

Definition spec_dict (specs : InstanceSpec) : dict :=
  [ ("vCPU", VInt (vCPU specs));
    ("Memory (GB)", VInt (Memory_GB specs));
    ("Network Bandwidth (Gbps)", VFloat (Network_Bandwidth_Gbps specs));
    ("Ingress Recommended (MBps)", VFloat (Ingress_Recommended_MBps specs));
    ("Ingress Max (MBps)", VFloat (Ingress_Max_MBps specs));
    ("Egress Recommended (MBps)", VFloat (Egress_Recommended_MBps specs));
    ("Egress Max (MBps)", VFloat (Egress_Max_MBps specs));
    ("Partitions per Broker Recommended",
       VInt (Partitions_per_Broker_Recommended specs));
    ("Partitions per Broker Max", VInt (Partitions_per_Broker_Max specs)) ].

Definition spec_table := list (string * InstanceSpec).

Definition INSTANCE_SPECS : spec_table :=
  [ ("kafka.t3.small",         mkSpec 2 2 (Flt 5 0) (Flt 4 8) (Flt 7 2) (Flt 9 6) (Flt 18 0) 300 300);
    ("kafka.m5.large",         mkSpec 2 8 (Flt 10 0) (Flt 4 8) (Flt 7 2) (Flt 9 6) (Flt 18 0) 1000 1500);
    ("kafka.m5.xlarge",        mkSpec 4 16 (Flt 10 0) (Flt 9 6) (Flt 14 4) (Flt 19 2) (Flt 36 0) 1000 1500);
    ("kafka.m5.2xlarge",       mkSpec 8 32 (Flt 10 0) (Flt 19 2) (Flt 28 8) (Flt 38 4) (Flt 72 0) 2000 3000);
    ("kafka.m5.4xlarge",       mkSpec 16 64 (Flt 10 0) (Flt 38 4) (Flt 57 6) (Flt 76 8) (Flt 144 0) 4000 6000);
    ("kafka.m5.8xlarge",       mkSpec 32 128 (Flt 10 0) (Flt 76 9) (Flt 115 4) (Flt 153 8) (Flt 288 5) 4000 6000);
    ("kafka.m5.12xlarge",      mkSpec 48 192 (Flt 12 0) (Flt 115 4) (Flt 173 1) (Flt 230 8) (Flt 432 7) 4000 6000);
    ("kafka.m5.16xlarge",      mkSpec 64 256 (Flt 20 0) (Flt 153 8) (Flt 230 7) (Flt 307 7) (Flt 576 9) 4000 6000);
    ("kafka.m5.24xlarge",      mkSpec 96 384 (Flt 25 0) (Flt 153 8) (Flt 230 7) (Flt 307 7) (Flt 576 9) 4000 6000);
    ("kafka.m7g.large",        mkSpec 2 8 (Flt 12 5) (Flt 4 8) (Flt 7 2) (Flt 9 6) (Flt 18 0) 1000 1500);
    ("kafka.m7g.xlarge",       mkSpec 4 16 (Flt 15 0) (Flt 9 6) (Flt 14 4) (Flt 19 2) (Flt 36 0) 1000 1500);
    ("kafka.m7g.2xlarge",      mkSpec 8 32 (Flt 15 0) (Flt 19 2) (Flt 28 8) (Flt 38 4) (Flt 72 0) 2000 3000);
    ("kafka.m7g.4xlarge",      mkSpec 16 64 (Flt 15 0) (Flt 38 4) (Flt 57 6) (Flt 76 8) (Flt 144 0) 4000 6000);
    ("kafka.m7g.8xlarge",      mkSpec 32 128 (Flt 15 0) (Flt 76 9) (Flt 115 4) (Flt 153 8) (Flt 288 5) 4000 6000);
    ("kafka.m7g.12xlarge",     mkSpec 48 192 (Flt 22 5) (Flt 115 4) (Flt 173 1) (Flt 230 8) (Flt 432 7) 4000 6000);
    ("kafka.m7g.16xlarge",     mkSpec 64 256 (Flt 30 0) (Flt 153 8) (Flt 230 7) (Flt 307 7) (Flt 576 9) 4000 6000);
    ("express.m7g.large",      mkSpec 2 8 (Flt 12 5) (Flt 15 6) (Flt 23 4) (Flt 31 2) (Flt 58 5) 1000 1500);
    ("express.m7g.xlarge",     mkSpec 4 16 (Flt 15 0) (Flt 31 2) (Flt 46 8) (Flt 62 5) (Flt 117 0) 1000 1500);
    ("express.m7g.2xlarge",    mkSpec 8 32 (Flt 15 0) (Flt 62 5) (Flt 93 7) (Flt 125 0) (Flt 234 2) 2000 3000);
    ("express.m7g.4xlarge",    mkSpec 16 64 (Flt 15 0) (Flt 124 9) (Flt 187 5) (Flt 249 8) (Flt 468 7) 4000 6000);
    ("express.m7g.8xlarge",    mkSpec 32 128 (Flt 15 0) (Flt 250 0) (Flt 375 0) (Flt 500 0) (Flt 937 5) 4000 6000);
    ("express.m7g.12xlarge",   mkSpec 48 192 (Flt 22 5) (Flt 375 0) (Flt 562 5) (Flt 750 0) (Flt 1406 2) 4000 6000);
    ("express.m7g.16xlarge",   mkSpec 64 256 (Flt 30 0) (Flt 500 0) (Flt 750 0) (Flt 1000 0) (Flt 1875 0) 4000 6000) ].

(** ** [get_cluster_best_practices] (lines 296-356)

    The function reads the module global [INSTANCE_SPECS]; the table it
    reads is the explicit first argument [table], so that the function can
    be run against the module's table as well as against any other state of
    that global. *)

(** The value first bound to the local [replication_factor] (lines 313-317). *)
Definition replication_factor (number_of_brokers : Z) : Z :=
  if number_of_brokers >=? RECOMMENDED_REPLICATION_FACTOR
  then RECOMMENDED_REPLICATION_FACTOR
  else number_of_brokers.

(** The local [min_insync_replicas] (lines 318-322). *)
Definition min_insync_replicas (number_of_brokers : Z) : Z :=
  if number_of_brokers >=? RECOMMENDED_REPLICATION_FACTOR
  then RECOMMENDED_MIN_INSYNC_REPLICAS
  else number_of_brokers.

(** The local [is_express_cluster] (line 325). *)
Definition is_express_cluster (instance_type : string) : bool :=
  startswith instance_type "express.".

Definition bytes_note : string :=
  " (Note: CloudWatch metrics may be in bytes; ensure proper conversion between bytes and megabytes)".

Definition get_cluster_best_practices
    (table : spec_table) (instance_type : string) (number_of_brokers : Z)
  : result dict :=
  if negb (contains table instance_type) then
    Return [ ("Error",
              VStr ("Instance type '" ++ instance_type
                    ++ "' is not supported or recognized.")) ]
  else
    specs <- getitem table instance_type ;;
    let recommended_cluster_partitions :=
      Partitions_per_Broker_Recommended specs * number_of_brokers in
    let max_cluster_partitions :=
      Partitions_per_Broker_Max specs * number_of_brokers in
    let replication_factor0 := replication_factor number_of_brokers in
    let min_insync_replicas := min_insync_replicas number_of_brokers in
    let is_express_cluster := is_express_cluster instance_type in
    (* lines 328-329: for express clusters the local is rebound to 3 *)
    let replication_factor :=
      if is_express_cluster then 3 else replication_factor0 in
    Return
      [ ("Instance Type", VStr (instance_type ++ " (provided as input)"));
        ("Number of Brokers",
           VStr (str number_of_brokers ++ " (provided as input)"));
        ("vCPU per Broker", VInt (vCPU specs));
        ("Memory (GB) per Broker",
           VStr (str (Memory_GB specs) ++ " (available on the host)"));
        ("Network Bandwidth (Gbps) per Broker",
           VStr (str_float (Network_Bandwidth_Gbps specs)
                 ++ " (available on the host)"));
        ("Ingress Throughput Recommended (MBps)",
           VStr (str_float (Ingress_Recommended_MBps specs) ++ bytes_note));
        ("Ingress Throughput Max (MBps)",
           VStr (str_float (Ingress_Max_MBps specs) ++ bytes_note));
        ("Egress Throughput Recommended (MBps)",
           VStr (str_float (Egress_Recommended_MBps specs) ++ bytes_note));
        ("Egress Throughput Max (MBps)",
           VStr (str_float (Egress_Max_MBps specs) ++ bytes_note));
        ("Recommended Partitions per Broker",
           VInt (Partitions_per_Broker_Recommended specs));
        ("Max Partitions per Broker",
           VStr (str (Partitions_per_Broker_Max specs)
                 ++ " (Note: Each partition should be 3-way replicated. For example, 1000 total partitions with three brokers will mean each broker has 1000 partitions.)"));
        ("Recommended Max Partitions per Cluster",
           VInt recommended_cluster_partitions);
        ("Max Partitions per Cluster", VInt max_cluster_partitions);
        ("CPU Utilization Guidelines",
           VStr ("Keep below " ++ str RECOMMENDED_CPU_UTILIZATION_PERCENT
                 ++ "% regularly; never exceed "
                 ++ str MAX_CPU_UTILIZATION_PERCENT ++ "%."));
        ("Disk Utilization Guidelines",
           VStr ("Warning at " ++ str STORAGE_UTILIZATION_WARNING_PERCENT
                 ++ "%, critical at "
                 ++ str STORAGE_UTILIZATION_CRITICAL_PERCENT ++ "%."));
        ("Replication Factor",
           VStr (str replication_factor
                 ++ (if is_express_cluster
                     then " (Note: For express clusters, replication factor should always be 3)"
                     else " (recommended)")));
        ("Minimum In-Sync Replicas", VInt min_insync_replicas);
        ("Under-Replicated Partitions Tolerance",
           VInt UNDER_REPLICATED_PARTITIONS_TOLERANCE);
        ("Leader Imbalance Tolerance (%)",
           VInt LEADER_IMBALANCE_TOLERANCE_PERCENT) ].

(** ** The catalog document of [msk_best_practices] (lines 386-417)

    The resource returns [json.dumps(best_practices)]; [best_practices] is
    the dictionary handed to the serializer. *)

Definition best_practices (table : spec_table) : value :=
  VDict
    [ ("thresholds",
       VDict
         [ ("cpu_utilization",
            VDict
              [ ("recommended_max", VInt RECOMMENDED_CPU_UTILIZATION_PERCENT);
                ("critical_max", VInt MAX_CPU_UTILIZATION_PERCENT);
                ("description",
                 VStr ("Keep below " ++ str RECOMMENDED_CPU_UTILIZATION_PERCENT
                       ++ "% regularly; never exceed "
                       ++ str MAX_CPU_UTILIZATION_PERCENT ++ "%.")) ]);
           ("disk_utilization",
            VDict
              [ ("warning", VInt STORAGE_UTILIZATION_WARNING_PERCENT);
                ("critical", VInt STORAGE_UTILIZATION_CRITICAL_PERCENT);
                ("description",
                 VStr ("Warning at " ++ str STORAGE_UTILIZATION_WARNING_PERCENT
                       ++ "%, critical at "
                       ++ str STORAGE_UTILIZATION_CRITICAL_PERCENT ++ "%.")) ]);
           ("replication",
            VDict
              [ ("recommended_factor", VInt RECOMMENDED_REPLICATION_FACTOR);
                ("min_insync_replicas", VInt RECOMMENDED_MIN_INSYNC_REPLICAS);
                ("description",
                 VStr "For optimal resilience, use replication factor 3 with minimum ISR of 2.") ]);
           ("under_replicated_partitions",
            VDict
              [ ("tolerance", VInt UNDER_REPLICATED_PARTITIONS_TOLERANCE);
                ("description",
                 VStr "Any deviation from zero indicates potential replication health issues.") ]);
           ("leader_imbalance",
            VDict
              [ ("tolerance_percent", VInt LEADER_IMBALANCE_TOLERANCE_PERCENT);
                ("description",
                 VStr ("Maintain leader distribution within "
                       ++ str LEADER_IMBALANCE_TOLERANCE_PERCENT
                       ++ "% balance to avoid performance bottlenecks.")) ]) ]);
      ("instance_specs",
       VDict (map (fun entry => (fst entry, VDict (spec_dict (snd entry)))) table));
      ("instance_categories",
       VDict
         [ ("standard",
            VList (map VStr
                     (filter (fun key => startswith key "kafka.") (keys table))));
           ("express",
            VList (map VStr
                     (filter (fun key => startswith key "express.") (keys table)))) ]) ].

(** ** The module as a server of calls

    [INSTANCE_SPECS] is a module-level dictionary, hence mutable state that
    outlives a call.  [step] threads it through one call of either entry
    point; neither body assigns to the global or calls a mutating method on
    it, and neither result holds a reference to a mutable part of it that
    reaches the caller (the calculator copies integers and strings into a
    fresh dictionary, the catalog is serialized before it is returned). *)

Module Server.

Record globals := { g_INSTANCE_SPECS : spec_table }.

Definition at_import : globals := {| g_INSTANCE_SPECS := INSTANCE_SPECS |}.

Inductive call :=
| Cluster (instance_type : string) (number_of_brokers : Z)
| Catalog.

Definition step (g : globals) (c : call) : globals * result value :=
  match c with
  | Cluster instance_type number_of_brokers =>
      (g, d <- get_cluster_best_practices (g_INSTANCE_SPECS g)
                 instance_type number_of_brokers ;;
          Return (VDict d))
  | Catalog => (g, Return (best_practices (g_INSTANCE_SPECS g)))
  end.

(** The state reached after a history of calls. *)
Fixpoint after (g : globals) (history : list call) : globals :=
  match history with
  | [] => g
  | c :: history' => after (fst (step g c)) history'
  end.

(** What a call answers when it is made after a history of calls. *)
Definition answer (history : list call) (c : call) : result value :=
  snd (step (after at_import history) c).

End Server.

(** ** Reading a result back

    These are the observations the properties below are stated with; they
    are not part of the Python module. *)

Definition field (r : result dict) (k : string) : option value :=
  match r with
  | Return d => get d k
  | Raise _ => None
  end.

Definition int_field (r : result dict) (k : string) : option Z :=
  match field r k with
  | Some (VInt z) => Some z
  | _ => None
  end.

Definition str_field (r : result dict) (k : string) : option string :=
  match field r k with
  | Some (VStr s) => Some s
  | _ => None
  end.

(** The characters of [s] before its first blank. *)
Fixpoint first_word (s : string) : string :=
  match s with
  | EmptyString => EmptyString
  | String c s' => if Ascii.eqb c " " then EmptyString else String c (first_word s')
  end.

(** Reading a decimal integer, the inverse of [str]. *)
Definition parse_int (s : string) : option Z :=
  option_map Z.of_int (NilZero.int_of_string s).

(** The number that the "Replication Factor" entry starts with. *)
Definition replication_factor_field (r : result dict) : option Z :=
  match str_field r "Replication Factor" with
  | Some s => parse_int (first_word s)
  | None => None
  end.

(** [s] occurs in [t]. *)
Definition occurs_in (s t : string) : Prop :=
  exists before after, t = before ++ s ++ after.

(** The error variant: a dictionary with the single key "Error". *)
Definition is_error (r : result dict) : bool :=
  match r with
  | Return [ (k, VStr _) ] => String.eqb k "Error"
  | _ => false
  end.

Inductive kind := KInt | KStr.

Definition has_kind (k : kind) (v : value) : bool :=
  match k, v with
  | KInt, VInt _ => true
  | KStr, VStr _ => true
  | _, _ => false
  end.

(** The shape of a recommendation: its keys, in order, and the kind of
    value under each. *)
Definition recommendation_schema : list (string * kind) :=
  [ ("Instance Type", KStr);
    ("Number of Brokers", KStr);
    ("vCPU per Broker", KInt);
    ("Memory (GB) per Broker", KStr);
    ("Network Bandwidth (Gbps) per Broker", KStr);
    ("Ingress Throughput Recommended (MBps)", KStr);
    ("Ingress Throughput Max (MBps)", KStr);
    ("Egress Throughput Recommended (MBps)", KStr);
    ("Egress Throughput Max (MBps)", KStr);
    ("Recommended Partitions per Broker", KInt);
    ("Max Partitions per Broker", KStr);
    ("Recommended Max Partitions per Cluster", KInt);
    ("Max Partitions per Cluster", KInt);
    ("CPU Utilization Guidelines", KStr);
    ("Disk Utilization Guidelines", KStr);
    ("Replication Factor", KStr);
    ("Minimum In-Sync Replicas", KInt);
    ("Under-Replicated Partitions Tolerance", KInt);
    ("Leader Imbalance Tolerance (%)", KInt) ].

Fixpoint conforms (d : dict) (schema : list (string * kind)) : bool :=
  match d, schema with
  | [], [] => true
  | (k, v) :: d', (k', t) :: schema' =>
      String.eqb k k' && has_kind t v && conforms d' schema'
  | _, _ => false
  end.

Definition well_formed (d : dict) : bool := conforms d recommendation_schema.

(** Reading the catalog document. *)
Definition member (v : value) (k : string) : option value :=
  match v with
  | VDict d => get d k
  | _ => None
  end.

Fixpoint strings (l : list value) : option (list string) :=
  match l with
  | [] => Some []
  | VStr s :: l' => option_map (cons s) (strings l')
  | _ :: _ => None
  end.

Definition category (doc : value) (name : string) : option (list string) :=
  match member doc "instance_categories" with
  | Some cats =>
      match member cats name with
      | Some (VList l) => strings l
      | _ => None
      end
  | None => None
  end.

(** Reading further into the catalog document and the calculator's text
    fields. *)
Definition instance_specs_entry (doc : value) (key : string) : option value :=
  match member doc "instance_specs" with
  | Some specs => member specs key
  | None => None
  end.

Definition threshold (doc : value) (group name : string) : option value :=
  match member doc "thresholds" with
  | Some thresholds =>
      match member thresholds group with
      | Some g => member g name
      | None => None
      end
  | None => None
  end.

(** The number a text field starts with. *)
Definition leading_int (r : result dict) (k : string) : option Z :=
  match str_field r k with
  | Some s => parse_int (first_word s)
  | None => None
  end.

(** * The cluster read tools: a shallow embedding of
      [awslabs/aws_msk_mcp_server/tools/read_cluster]

    The tools forward to the cloud SDK.  A call of the SDK is an effect: it
    is a transformer of an abstract [World] that also yields a response or
    raises.  The SDK client and the sibling modules that are imported by
    [__init__.py] are parameters of the model. *)

Module Tools.

(** The Python objects the tools handle: arguments, request parameters and
    responses. *)
Inductive obj :=
| ONone
| OInt (z : Z)
| OStr (s : string)
| OList (l : list obj)
| ODict (d : list (string * obj)).

(** The truth value of an object, as [if x:] takes it. *)
Definition truthy (o : obj) : bool :=
  match o with
  | ONone => false
  | OInt z => negb (z =? 0)
  | OStr s => negb (String.eqb s "")
  | OList l => match l with [] => false | _ :: _ => true end
  | ODict d => match d with [] => false | _ :: _ => true end
  end.

(** An exception deriving from [Exception]: its class and [str(e)]. *)
Record exception := Exc { exc_class : string; exc_str : string }.

Definition ValueError (message : string) : exception :=
  Exc "ValueError" message.

Inductive outcome (A : Type) :=
| Ok (a : A)
| Raised (e : exception).
Arguments Ok {A} a.
Arguments Raised {A} e.

(** [d[k] = v]: rebinds an existing key in place, appends a new one. *)
Fixpoint setitem {V} (d : list (string * V)) (k : string) (v : V)
  : list (string * V) :=
  match d with
  | [] => [(k, v)]
  | (k', v') :: d' =>
      if String.eqb k' k then (k', v) :: d' else (k', v') :: setitem d' k v
  end.

(** [d.get(k, default)]. *)
Definition get_default {V} (d : list (string * V)) (k : string) (default : V)
  : V :=
  match get d k with
  | Some v => v
  | None => default
  end.

Section Effects.

Context {World : Type}.

Definition M (A : Type) : Type := World -> World * outcome A.

Definition ret {A} (a : A) : M A := fun w => (w, Ok a).

Definition raise {A} (e : exception) : M A := fun w => (w, Raised e).

Definition bind {A B} (m : M A) (k : A -> M B) : M B :=
  fun w =>
    match m w with
    | (w', Ok a) => k a w'
    | (w', Raised e) => (w', Raised e)
    end.

(** [try: m  except Exception as e: handler(e)]. *)
Definition try_except {A} (m : M A) (handler : exception -> M A) : M A :=
  fun w =>
    match m w with
    | (w', Ok a) => (w', Ok a)
    | (w', Raised e) => handler e w'
    end.

(** The two methods of the SDK client that the files under [tools] call,
    each taking its keyword arguments as a dictionary. *)
Record Client := {
  client_get_compatible_kafka_versions : list (string * obj) -> M obj;
  client_list_cluster_operations_v2 : list (string * obj) -> M obj
}.

Definition client_required : string :=
  "Client must be provided. This function should only be called from get_cluster_info.".

(** [get_compatible_kafka_versions.py], lines 7-30. *)
Definition get_compatible_kafka_versions
    (cluster_arn : obj) (client : option Client) : M obj :=
  match client with
  | None => raise (ValueError client_required)
  | Some client =>
      let params := [] in
      let params :=
        if truthy cluster_arn then setitem params "ClusterArn" cluster_arn
        else params in
      bind (client_get_compatible_kafka_versions client params)
           (fun response => ret response)
  end.

(** [list_cluster_operations.py], lines 7-42. *)
Definition list_cluster_operations
    (cluster_arn : obj) (client : option Client)
    (max_results : obj) (next_token : obj) : M obj :=
  match client with
  | None => raise (ValueError client_required)
  | Some client =>
      let params :=
        [ ("ClusterArn", cluster_arn); ("MaxResults", max_results) ] in
      let params :=
        if truthy next_token then setitem params "NextToken" next_token
        else params in
      bind (client_list_cluster_operations_v2 client params)
           (fun response => ret response)
  end.

(** What [__init__.py] imports from outside the files modelled here: the
    SDK's client factory, the sibling tool functions, and the default values
    of the two trailing parameters of the two listing functions that are
    also called with two arguments. *)
Record Imports := {
  boto3_client : obj -> M Client;
  describe_cluster : obj -> option Client -> M obj;
  describe_cluster_operation : obj -> option Client -> M obj;
  get_bootstrap_brokers : obj -> option Client -> M obj;
  get_cluster_policy : obj -> option Client -> M obj;
  list_nodes : obj -> option Client -> M obj;
  list_client_vpc_connections : obj -> option Client -> obj -> obj -> M obj;
  list_client_vpc_connections_defaults : obj * obj;
  list_scram_secrets : obj -> option Client -> obj -> obj -> M obj;
  list_scram_secrets_defaults : obj * obj
}.

(** One [try: result[key] = call  except Exception as e: result[key] =
    {"error": str(e)}] block of [get_cluster_info]. *)
Definition store_guarded
    (result : list (string * obj)) (key : string) (call : M obj)
  : M (list (string * obj)) :=
  try_except
    (bind call (fun v => ret (setitem result key v)))
    (fun e => ret (setitem result key (ODict [ ("error", OStr (exc_str e)) ]))).

(** [describe_cluster_operation_tool], lines 22-36 of [__init__.py]. *)
Definition describe_cluster_operation_tool
    (env : Imports) (region cluster_operation_arn : obj) : M obj :=
  bind (boto3_client env region) (fun client =>
  describe_cluster_operation env cluster_operation_arn (Some client)).

(** [get_cluster_info], lines 38-138 of [__init__.py]. *)
Definition get_cluster_info
    (env : Imports) (region cluster_arn : obj) (info_type : string)
    (kwargs : list (string * obj)) : M obj :=
  bind (boto3_client env region) (fun client =>
  let client := Some client in
  if String.eqb info_type "all" then
    let result := [] in
    bind (store_guarded result "metadata"
            (describe_cluster env cluster_arn client)) (fun result =>
    bind (store_guarded result "brokers"
            (get_bootstrap_brokers env cluster_arn client)) (fun result =>
    bind (store_guarded result "nodes"
            (list_nodes env cluster_arn client)) (fun result =>
    bind (store_guarded result "compatible_versions"
            (get_compatible_kafka_versions cluster_arn client)) (fun result =>
    bind (store_guarded result "policy"
            (get_cluster_policy env cluster_arn client)) (fun result =>
    bind (store_guarded result "operations"
            (list_cluster_operations cluster_arn client (OInt 10) ONone))
         (fun result =>
    bind (store_guarded result "client_vpc_connections"
            (list_client_vpc_connections env cluster_arn client
               (fst (list_client_vpc_connections_defaults env))
               (snd (list_client_vpc_connections_defaults env))))
         (fun result =>
    bind (store_guarded result "scram_secrets"
            (list_scram_secrets env cluster_arn client
               (fst (list_scram_secrets_defaults env))
               (snd (list_scram_secrets_defaults env))))
         (fun result =>
    ret (ODict result)))))))))
  else if String.eqb info_type "metadata" then
    describe_cluster env cluster_arn client
  else if String.eqb info_type "brokers" then
    get_bootstrap_brokers env cluster_arn client
  else if String.eqb info_type "nodes" then
    list_nodes env cluster_arn client
  else if String.eqb info_type "compatible_versions" then
    get_compatible_kafka_versions cluster_arn client
  else if String.eqb info_type "policy" then
    get_cluster_policy env cluster_arn client
  else if String.eqb info_type "operations" then
    let max_results := get_default kwargs "max_results" (OInt 10) in
    let next_token := get_default kwargs "next_token" ONone in
    list_cluster_operations cluster_arn client max_results next_token
  else if String.eqb info_type "client_vpc_connections" then
    let max_results := get_default kwargs "max_results" (OInt 10) in
    let next_token := get_default kwargs "next_token" ONone in
    list_client_vpc_connections env cluster_arn client max_results next_token
  else if String.eqb info_type "scram_secrets" then
    let max_results := get_default kwargs "max_results" ONone in
    let next_token := get_default kwargs "next_token" ONone in
    list_scram_secrets env cluster_arn client max_results next_token
  else
    raise (ValueError ("Unsupported info_type: " ++ info_type))).

End Effects.

Arguments M World A : clear implicits.
Arguments Client World : clear implicits.
Arguments Imports World : clear implicits.

(** The values of [info_type] that [get_cluster_info] serves. *)
Definition info_types : list string :=
  [ "all"; "metadata"; "brokers"; "nodes"; "compatible_versions"; "policy";
    "operations"; "client_vpc_connections"; "scram_secrets" ].

(** The keys of the dictionary built for [info_type = "all"]. *)
Definition all_keys : list string :=
  [ "metadata"; "brokers"; "nodes"; "compatible_versions"; "policy";
    "operations"; "client_vpc_connections"; "scram_secrets" ].

(** A world that records the requests sent through the client, and an
    environment over it in which every call answers with the named
    dictionary; a stand-in for the SDK when a property is run. *)
Definition log := list (string * list (string * obj)).

Definition logging (name : string) (params : list (string * obj)) : M log obj :=
  fun w => ((w ++ [ (name, params) ])%list, Ok (ODict [ ("from", OStr name) ])).

Definition logging_client : Client log :=
  {| client_get_compatible_kafka_versions :=
       logging "get_compatible_kafka_versions";
     client_list_cluster_operations_v2 :=
       logging "list_cluster_operations_v2" |}.

Definition logging_env : Imports log :=
  {| boto3_client := fun _ => ret logging_client;
     describe_cluster := fun arn _ => logging "describe_cluster" [ ("arn", arn) ];
     describe_cluster_operation :=
       fun arn _ => logging "describe_cluster_operation" [ ("arn", arn) ];
     get_bootstrap_brokers :=
       fun arn _ => logging "get_bootstrap_brokers" [ ("arn", arn) ];
     get_cluster_policy :=
       fun arn _ => logging "get_cluster_policy" [ ("arn", arn) ];
     list_nodes := fun arn _ => logging "list_nodes" [ ("arn", arn) ];
     list_client_vpc_connections :=
       fun arn _ m t =>
         logging "list_client_vpc_connections"
           [ ("arn", arn); ("max_results", m); ("next_token", t) ];
     list_client_vpc_connections_defaults := (OInt 10, ONone);
     list_scram_secrets :=
       fun arn _ m t =>
         logging "list_scram_secrets"
           [ ("arn", arn); ("max_results", m); ("next_token", t) ];
     list_scram_secrets_defaults := (ONone, ONone) |}.

(** The same environment with a client factory that fails. *)
Definition offline_env : Imports log :=
  {| boto3_client :=
       fun _ => raise (Exc "NoRegionError" "You must specify a region.");
     describe_cluster := describe_cluster logging_env;
     describe_cluster_operation := describe_cluster_operation logging_env;
     get_bootstrap_brokers := get_bootstrap_brokers logging_env;
     get_cluster_policy := get_cluster_policy logging_env;
     list_nodes := list_nodes logging_env;
     list_client_vpc_connections := list_client_vpc_connections logging_env;
     list_client_vpc_connections_defaults := (OInt 10, ONone);
     list_scram_secrets := list_scram_secrets logging_env;
     list_scram_secrets_defaults := (ONone, ONone) |}.

(** What a guarded block stores for the outcome of its call. *)
Definition guarded_value (o : outcome obj) : obj :=
  match o with
  | Ok v => v
  | Raised e => ODict [ ("error", OStr (exc_str e)) ]
  end.

End Tools.

(** * Properties *)

(** ** Decimal text of integers *)

Lemma first_word_digits (d : Decimal.uint) (rest : string) :
  first_word (NilEmpty.string_of_uint d ++ String " " rest)
  = NilEmpty.string_of_uint d.
Proof.
  induction d; simpl; rewrite ?IHd; reflexivity.
Qed.

Lemma first_word_uint (d : Decimal.uint) (rest : string) :
  first_word (NilZero.string_of_uint d ++ String " " rest)
  = NilZero.string_of_uint d.
Proof.
  destruct d; try apply first_word_digits; reflexivity.
Qed.

Lemma first_word_str (z : Z) (rest : string) :
  first_word (str z ++ String " " rest) = str z.
Proof.
  unfold str.
  destruct (Z.to_int z) as [d | d]; simpl.
  - apply first_word_uint.
  - f_equal. apply first_word_uint.
Qed.

Lemma parse_int_str (z : Z) : parse_int (str z) = Some z.
Proof.
  unfold parse_int, str.
  rewrite NilZero.isi.
  - simpl. f_equal. apply DecimalZ.of_to.
  - destruct z as [| p | p]; simpl; try discriminate.
    intros [= H]. exact (DecimalPos.Unsigned.to_uint_nonnil p H).
  - destruct z as [| p | p]; simpl; try discriminate.
    intros [= H]. exact (DecimalPos.Unsigned.to_uint_nonnil p H).
Qed.

Lemma str_inj (a b : Z) : str a = str b -> a = b.
Proof.
  intros H.
  assert (E : parse_int (str a) = parse_int (str b)) by (rewrite H; reflexivity).
  rewrite !parse_int_str in E. congruence.
Qed.

(** ** Dictionaries *)

Lemma contains_get {V} (d : list (string * V)) (k : string) :
  contains d k = true <-> exists v, get d k = Some v.
Proof.
  unfold contains. destruct (get d k) as [v |]; split.
  - intros _. exists v. reflexivity.
  - reflexivity.
  - discriminate.
  - intros [v H]. discriminate.
Qed.

Lemma contains_keys {V} (d : list (string * V)) (k : string) :
  contains d k = true <-> In k (keys d).
Proof.
  unfold contains, keys.
  induction d as [| [k' v] d IH]; simpl.
  - split; [discriminate | tauto].
  - destruct (String.eqb_spec k' k) as [-> | Hne].
    + split; auto.
    + rewrite IH. split; [auto | intros [E | H]; [contradiction | exact H]].
Qed.

Lemma get_In {V} (d : list (string * V)) (k : string) (v : V) :
  get d k = Some v -> In (k, v) d.
Proof.
  induction d as [| [k' v'] d IH]; simpl.
  - discriminate.
  - destruct (String.eqb_spec k' k) as [-> | Hne].
    + intros [= ->]. left. reflexivity.
    + intros H. right. apply IH, H.
Qed.

(** ** The calculator on a key of the table *)

Section Calculator.

Variable table : spec_table.
Variable instance_type : string.
Variable number_of_brokers : Z.

#[local] Notation r :=
  (get_cluster_best_practices table instance_type number_of_brokers).

Ltac enter H :=
  unfold get_cluster_best_practices, contains, getitem;
  rewrite H; cbn [negb bind].

Section Found.

Variable specs : InstanceSpec.
Hypothesis Hspecs : get table instance_type = Some specs.

Lemma found_returns : exists d, r = Return d /\ well_formed d = true.
Proof. enter Hspecs. eexists. split; reflexivity. Qed.

Lemma found_not_error : is_error r = false.
Proof. enter Hspecs. reflexivity. Qed.

Lemma found_recommended_cluster_partitions :
  int_field r "Recommended Max Partitions per Cluster"
  = Some (Partitions_per_Broker_Recommended specs * number_of_brokers).
Proof. enter Hspecs. reflexivity. Qed.

Lemma found_max_cluster_partitions :
  int_field r "Max Partitions per Cluster"
  = Some (Partitions_per_Broker_Max specs * number_of_brokers).
Proof. enter Hspecs. reflexivity. Qed.

Lemma found_min_insync_replicas :
  int_field r "Minimum In-Sync Replicas"
  = Some (min_insync_replicas number_of_brokers).
Proof. enter Hspecs. reflexivity. Qed.

Lemma found_replication_factor_text :
  str_field r "Replication Factor"
  = Some (str (if is_express_cluster instance_type then 3
               else replication_factor number_of_brokers)
          ++ (if is_express_cluster instance_type
              then " (Note: For express clusters, replication factor should always be 3)"
              else " (recommended)")).
Proof. enter Hspecs. reflexivity. Qed.

Lemma found_replication_factor :
  replication_factor_field r
  = Some (if is_express_cluster instance_type then 3
          else replication_factor number_of_brokers).
Proof.
  unfold replication_factor_field.
  rewrite found_replication_factor_text.
  destruct (is_express_cluster instance_type);
    rewrite first_word_str; apply parse_int_str.
Qed.

End Found.

Lemma missing_returns :
  contains table instance_type = false ->
  r = Return [ ("Error",
                VStr ("Instance type '" ++ instance_type
                      ++ "' is not supported or recognized.")) ].
Proof.
  intros H. unfold get_cluster_best_practices.
  rewrite H. reflexivity.
Qed.


End Calculator.

(** ** The broker-count branch *)

Lemma replication_factor_spec (n : Z) :
  (3 <= n -> replication_factor n = 3) /\ (n < 3 -> replication_factor n = n).
Proof.
  unfold replication_factor, RECOMMENDED_REPLICATION_FACTOR.
  rewrite Z.geb_leb. destruct (Z.leb_spec 3 n); split; intros; lia.
Qed.

Lemma min_insync_replicas_spec (n : Z) :
  (3 <= n -> min_insync_replicas n = 2) /\ (n < 3 -> min_insync_replicas n = n).
Proof.
  unfold min_insync_replicas, RECOMMENDED_REPLICATION_FACTOR,
    RECOMMENDED_MIN_INSYNC_REPLICAS.
  rewrite Z.geb_leb. destruct (Z.leb_spec 3 n); split; intros; lia.
Qed.

(** ** Facts about the literal table *)

Lemma INSTANCE_SPECS_keys_NoDup : NoDup (keys INSTANCE_SPECS).
Proof.
  unfold keys, INSTANCE_SPECS; cbn [map fst].
  repeat (constructor; [cbn [In]; intuition discriminate |]).
  constructor.
Qed.

Lemma INSTANCE_SPECS_partitions_positive :
  Forall (fun entry =>
            0 < Partitions_per_Broker_Recommended (snd entry)
            /\ 0 < Partitions_per_Broker_Max (snd entry))
         INSTANCE_SPECS.
Proof.
  unfold INSTANCE_SPECS.
  repeat (constructor; [cbn; lia |]). constructor.
Qed.

Lemma partitions_positive (instance_type : string) (specs : InstanceSpec) :
  get INSTANCE_SPECS instance_type = Some specs ->
  0 < Partitions_per_Broker_Recommended specs
  /\ 0 < Partitions_per_Broker_Max specs.
Proof.
  intros H. apply get_In in H.
  exact (proj1 (Forall_forall _ _) INSTANCE_SPECS_partitions_positive _ H).
Qed.

(** * The calculator against the module's table *)

(** C1. For every broker count and every key of the table that starts with
    "express.", the returned replication factor is 3 whatever the
    broker-count branch chose, while the returned minimum in-sync replicas is
    the value of that branch: 2 from three brokers on, the broker count
    below. *)
Theorem express_forces_replication_factor
    (instance_type : string) (number_of_brokers : Z) :
  contains INSTANCE_SPECS instance_type = true ->
  startswith instance_type "express." = true ->
  let r := get_cluster_best_practices INSTANCE_SPECS instance_type
             number_of_brokers in
  replication_factor_field r = Some 3
  /\ str_field r "Replication Factor"
     = Some "3 (Note: For express clusters, replication factor should always be 3)"
  /\ int_field r "Minimum In-Sync Replicas"
     = Some (if number_of_brokers >=? 3 then 2 else number_of_brokers).
Proof.
  intros Hin Hexpress r.
  apply contains_get in Hin. destruct Hin as [specs Hspecs].
  fold (is_express_cluster instance_type) in Hexpress.
  split; [| split].
  - subst r. rewrite (found_replication_factor _ _ _ specs Hspecs).
    rewrite Hexpress. reflexivity.
  - subst r. rewrite (found_replication_factor_text _ _ _ specs Hspecs).
    rewrite Hexpress. reflexivity.
  - subst r. rewrite (found_min_insync_replicas _ _ _ specs Hspecs).
    reflexivity.
Qed.

(** The scenario of C1: express.m7g.large with one broker gives replication
    factor 3 and minimum in-sync replicas 1. *)
Lemma express_forces_replication_factor_witness :
  contains INSTANCE_SPECS "express.m7g.large" = true
  /\ startswith "express.m7g.large" "express." = true
  /\ replication_factor_field
       (get_cluster_best_practices INSTANCE_SPECS "express.m7g.large" 1)
     = Some 3
  /\ int_field (get_cluster_best_practices INSTANCE_SPECS "express.m7g.large" 1)
       "Minimum In-Sync Replicas"
     = Some 1.
Proof.
  split; [reflexivity |]. split; [reflexivity |].
  destruct (express_forces_replication_factor "express.m7g.large" 1
              eq_refl eq_refl) as (Hrf & _ & Hisr).
  split; [exact Hrf | exact Hisr].
Defined.

(** C2. For every key of the table and every broker count, the broker-count
    branch gives replication factor 3 and minimum in-sync replicas 2 from
    three brokers on, and the broker count for both below; the minimum
    in-sync replicas is returned as computed, and so is the replication
    factor unless the express override replaces it. *)
Theorem broker_count_branch (instance_type : string) (number_of_brokers : Z) :
  contains INSTANCE_SPECS instance_type = true ->
  let r := get_cluster_best_practices INSTANCE_SPECS instance_type
             number_of_brokers in
  (3 <= number_of_brokers ->
     replication_factor number_of_brokers = 3
     /\ int_field r "Minimum In-Sync Replicas" = Some 2)
  /\ (number_of_brokers < 3 ->
        replication_factor number_of_brokers = number_of_brokers
        /\ int_field r "Minimum In-Sync Replicas" = Some number_of_brokers)
  /\ replication_factor_field r
     = Some (if is_express_cluster instance_type then 3
             else replication_factor number_of_brokers).
Proof.
  intros Hin r.
  apply contains_get in Hin. destruct Hin as [specs Hspecs].
  subst r. rewrite (found_min_insync_replicas _ _ _ specs Hspecs).
  rewrite (found_replication_factor _ _ _ specs Hspecs).
  destruct (replication_factor_spec number_of_brokers) as [Hge Hlt].
  destruct (min_insync_replicas_spec number_of_brokers) as [Hge' Hlt'].
  split; [| split].
  - intros H. rewrite (Hge H), (Hge' H). split; reflexivity.
  - intros H. rewrite (Hlt H), (Hlt' H). split; reflexivity.
  - reflexivity.
Qed.

(** The scenario of C2: kafka.t3.small with two brokers gives replication
    factor and minimum in-sync replicas 2. *)
Lemma broker_count_branch_witness :
  contains INSTANCE_SPECS "kafka.t3.small" = true
  /\ replication_factor_field
       (get_cluster_best_practices INSTANCE_SPECS "kafka.t3.small" 2)
     = Some 2
  /\ int_field (get_cluster_best_practices INSTANCE_SPECS "kafka.t3.small" 2)
       "Minimum In-Sync Replicas"
     = Some 2.
Proof.
  split; [reflexivity |].
  destruct (broker_count_branch "kafka.t3.small" 2 eq_refl)
    as (_ & Hsmall & Hrf).
  destruct (Hsmall ltac:(lia)) as [_ Hisr].
  split; [exact Hrf | exact Hisr].
Defined.

(** C3. For every key of the table and every broker count, the recommended
    and the max cluster partition ceilings are the entry's per-broker
    recommended and max partitions multiplied by the broker count; the
    replication factor and minimum in-sync replicas come with them as the
    branch and the override set them. *)
Theorem cluster_partition_ceilings
    (instance_type : string) (specs : InstanceSpec) (number_of_brokers : Z) :
  get INSTANCE_SPECS instance_type = Some specs ->
  let r := get_cluster_best_practices INSTANCE_SPECS instance_type
             number_of_brokers in
  int_field r "Recommended Max Partitions per Cluster"
  = Some (Partitions_per_Broker_Recommended specs * number_of_brokers)
  /\ int_field r "Max Partitions per Cluster"
     = Some (Partitions_per_Broker_Max specs * number_of_brokers)
  /\ str_field r "Replication Factor"
     = Some (str (if is_express_cluster instance_type then 3
                  else replication_factor number_of_brokers)
             ++ (if is_express_cluster instance_type
                 then " (Note: For express clusters, replication factor should always be 3)"
                 else " (recommended)"))
  /\ int_field r "Minimum In-Sync Replicas"
     = Some (min_insync_replicas number_of_brokers).
Proof.
  intros Hspecs r. subst r. repeat split.
  - apply found_recommended_cluster_partitions, Hspecs.
  - apply found_max_cluster_partitions, Hspecs.
  - apply (found_replication_factor_text _ _ _ specs Hspecs).
  - apply (found_min_insync_replicas _ _ _ specs Hspecs).
Qed.

(** The scenario of C3: kafka.m5.large with three brokers gives ceilings 3000
    and 4500, replication factor "3 (recommended)" and minimum in-sync
    replicas 2. *)
Lemma cluster_partition_ceilings_witness :
  let r := get_cluster_best_practices INSTANCE_SPECS "kafka.m5.large" 3 in
  get INSTANCE_SPECS "kafka.m5.large"
  = Some (mkSpec 2 8 (Flt 10 0) (Flt 4 8) (Flt 7 2) (Flt 9 6) (Flt 18 0)
            1000 1500)
  /\ int_field r "Recommended Max Partitions per Cluster" = Some 3000
  /\ int_field r "Max Partitions per Cluster" = Some 4500
  /\ str_field r "Replication Factor" = Some "3 (recommended)"
  /\ int_field r "Minimum In-Sync Replicas" = Some 2.
Proof.
  split; [reflexivity |].
  exact (cluster_partition_ceilings "kafka.m5.large" _ 3 eq_refl).
Defined.

(** C4. For every identifier that is not a key of the table and every
    broker count, the calculator returns (it does not raise) the error
    variant, a dictionary with the single key "Error" whose message contains
    the identifier. *)
Theorem unsupported_instance_type
    (instance_type : string) (number_of_brokers : Z) :
  contains INSTANCE_SPECS instance_type = false ->
  let r := get_cluster_best_practices INSTANCE_SPECS instance_type
             number_of_brokers in
  exists message,
    r = Return [ ("Error", VStr message) ]
    /\ message
       = "Instance type '" ++ instance_type
         ++ "' is not supported or recognized."
    /\ occurs_in instance_type message
    /\ is_error r = true.
Proof.
  intros Hout r. subst r.
  rewrite (missing_returns _ _ number_of_brokers Hout).
  eexists. split; [reflexivity |]. split; [reflexivity |]. split.
  - exists "Instance type '", "' is not supported or recognized.".
    reflexivity.
  - reflexivity.
Qed.

(** The scenario of C4: "not-a-real-type" with five brokers. *)
Lemma unsupported_instance_type_witness :
  contains INSTANCE_SPECS "not-a-real-type" = false
  /\ exists message,
       get_cluster_best_practices INSTANCE_SPECS "not-a-real-type" 5
       = Return [ ("Error", VStr message) ]
       /\ occurs_in "not-a-real-type" message.
Proof.
  split; [reflexivity |].
  destruct (unsupported_instance_type "not-a-real-type" 5 eq_refl)
    as (message & Hr & _ & Hocc & _).
  exists message. split; [exact Hr | exact Hocc].
Defined.

(** C5. For every key of the table and every positive broker count, the
    calculator does not raise: it returns a dictionary that has the shape
    of a recommendation and is not the error variant. *)
Theorem positive_count_returns_recommendation
    (instance_type : string) (number_of_brokers : Z) :
  contains INSTANCE_SPECS instance_type = true ->
  0 < number_of_brokers ->
  exists d,
    get_cluster_best_practices INSTANCE_SPECS instance_type number_of_brokers
    = Return d
    /\ well_formed d = true
    /\ is_error (Return d) = false.
Proof.
  intros Hin _.
  apply contains_get in Hin. destruct Hin as [specs Hspecs].
  destruct (found_returns _ _ number_of_brokers specs Hspecs)
    as (d & Hd & Hwf).
  exists d. split; [exact Hd |]. split; [exact Hwf |].
  rewrite <- Hd. apply (found_not_error _ _ _ specs Hspecs).
Qed.

Lemma positive_count_returns_recommendation_witness :
  contains INSTANCE_SPECS "kafka.m7g.4xlarge" = true
  /\ 0 < 6
  /\ exists d,
       get_cluster_best_practices INSTANCE_SPECS "kafka.m7g.4xlarge" 6
       = Return d
       /\ well_formed d = true
       /\ is_error (Return d) = false.
Proof.
  split; [reflexivity |]. split; [lia |].
  apply (positive_count_returns_recommendation "kafka.m7g.4xlarge" 6);
    [reflexivity | lia].
Defined.

(** ** The catalog *)

Lemma strings_map_VStr (l : list string) : strings (map VStr l) = Some l.
Proof.
  induction l as [| s l IH]; simpl.
  - reflexivity.
  - rewrite IH. reflexivity.
Qed.

Lemma category_standard (table : spec_table) :
  category (best_practices table) "standard"
  = Some (filter (fun key => startswith key "kafka.") (keys table)).
Proof. unfold category, best_practices; cbn. apply strings_map_VStr. Qed.

Lemma category_express (table : spec_table) :
  category (best_practices table) "express"
  = Some (filter (fun key => startswith key "express.") (keys table)).
Proof. unfold category, best_practices; cbn. apply strings_map_VStr. Qed.

Lemma INSTANCE_SPECS_keys_prefixed :
  Forall (fun key => startswith key "kafka." = true
                     \/ startswith key "express." = true)
         (keys INSTANCE_SPECS).
Proof.
  unfold keys, INSTANCE_SPECS; cbn [map fst].
  repeat (constructor; [first [left; reflexivity | right; reflexivity] |]).
  constructor.
Qed.

(** C6. In the catalog document, the "standard" list of
    "instance_categories" holds exactly the keys of the table that start
    with "kafka.", the "express" list exactly those that start with
    "express.", and the two lists together, duplicates removed, hold
    exactly the keys of the table. *)
Theorem instance_categories_partition_keys :
  exists standard express,
    category (best_practices INSTANCE_SPECS) "standard" = Some standard
    /\ category (best_practices INSTANCE_SPECS) "express" = Some express
    /\ (forall key, In key standard <->
                    In key (keys INSTANCE_SPECS)
                    /\ startswith key "kafka." = true)
    /\ (forall key, In key express <->
                    In key (keys INSTANCE_SPECS)
                    /\ startswith key "express." = true)
    /\ (forall key, In key (nodup string_dec (standard ++ express)) <->
                    In key (keys INSTANCE_SPECS))
    /\ NoDup standard /\ NoDup express.
Proof.
  do 2 eexists.
  split; [apply category_standard |]. split; [apply category_express |].
  split;
    [intros key; exact (filter_In (fun k => startswith k "kafka.") key _) |].
  split;
    [intros key; exact (filter_In (fun k => startswith k "express.") key _) |].
  split.
  - intros key. rewrite nodup_In, in_app_iff, !filter_In. split.
    + intros [[H _] | [H _]]; exact H.
    + intros H.
      destruct (proj1 (Forall_forall _ _) INSTANCE_SPECS_keys_prefixed _ H);
        [left | right]; split; assumption.
  - split; apply NoDup_filter, INSTANCE_SPECS_keys_NoDup.
Qed.

(** ** Repeated calls *)

Lemma after_unchanged (history : list Server.call) (g : Server.globals) :
  Server.after g history = g.
Proof.
  induction history as [| c history IH]; simpl.
  - reflexivity.
  - destruct c; simpl; apply IH.
Qed.

(** C7. Whatever calls were served before, a call of the calculator answers
    what the calculator computes from its two arguments and the table as it
    was at import; two calls with the same arguments therefore answer the
    same, and no call changes the table. *)
Theorem calculator_deterministic
    (history history' : list Server.call)
    (instance_type : string) (number_of_brokers : Z) :
  Server.answer history (Server.Cluster instance_type number_of_brokers)
  = Server.answer history' (Server.Cluster instance_type number_of_brokers)
  /\ Server.answer history (Server.Cluster instance_type number_of_brokers)
     = (d <- get_cluster_best_practices INSTANCE_SPECS instance_type
               number_of_brokers ;;
        Return (VDict d))
  /\ Server.after Server.at_import history = Server.at_import.
Proof.
  unfold Server.answer. rewrite !after_unchanged.
  repeat split; reflexivity.
Qed.

(** ** Scaling of the partition ceilings *)

(** C8. For a fixed key of the table, both cluster partition ceilings are
    linear in the broker count: multiplying the count by [k] multiplies
    both by [k]; and both are non-decreasing in the count over the
    non-negative counts. *)
Theorem ceilings_scale_with_brokers (instance_type : string) :
  contains INSTANCE_SPECS instance_type = true ->
  exists recommended maximum : Z -> Z,
    (forall n,
        let r := get_cluster_best_practices INSTANCE_SPECS instance_type n in
        int_field r "Recommended Max Partitions per Cluster"
        = Some (recommended n)
        /\ int_field r "Max Partitions per Cluster" = Some (maximum n))
    /\ (forall k n, recommended (k * n) = k * recommended n
                    /\ maximum (k * n) = k * maximum n)
    /\ (forall n m, 0 <= n -> n <= m ->
                    recommended n <= recommended m
                    /\ maximum n <= maximum m).
Proof.
  intros Hin. apply contains_get in Hin. destruct Hin as [specs Hspecs].
  destruct (partitions_positive _ _ Hspecs) as [Hrec Hmax].
  exists (fun n => Partitions_per_Broker_Recommended specs * n),
         (fun n => Partitions_per_Broker_Max specs * n).
  split; [| split].
  - intros n r. subst r. split.
    + apply found_recommended_cluster_partitions, Hspecs.
    + apply found_max_cluster_partitions, Hspecs.
  - intros k n. split; ring.
  - intros n m _ Hle. split; apply Z.mul_le_mono_nonneg_l; lia.
Qed.

Lemma ceilings_scale_with_brokers_witness :
  contains INSTANCE_SPECS "kafka.m5.2xlarge" = true
  /\ exists recommended maximum : Z -> Z,
       (forall n,
           let r := get_cluster_best_practices INSTANCE_SPECS
                      "kafka.m5.2xlarge" n in
           int_field r "Recommended Max Partitions per Cluster"
           = Some (recommended n)
           /\ int_field r "Max Partitions per Cluster" = Some (maximum n))
       /\ (forall k n, recommended (k * n) = k * recommended n
                       /\ maximum (k * n) = k * maximum n)
       /\ (forall n m, 0 <= n -> n <= m ->
                       recommended n <= recommended m
                       /\ maximum n <= maximum m).
Proof.
  split; [reflexivity |].
  exact (ceilings_scale_with_brokers "kafka.m5.2xlarge" eq_refl).
Defined.

(** ** Broker counts outside the intended range *)

(** C9. No lower bound on the broker count is enforced: for every key of
    the table and every broker count that is zero or negative the
    calculator still returns a dictionary with the shape of a
    recommendation, not the error variant; both partition ceilings are then
    non-positive, and for a type without the express prefix the returned
    replication factor and minimum in-sync replicas are that broker
    count. *)
Theorem nonpositive_count_accepted
    (instance_type : string) (number_of_brokers : Z) :
  contains INSTANCE_SPECS instance_type = true ->
  number_of_brokers <= 0 ->
  let r := get_cluster_best_practices INSTANCE_SPECS instance_type
             number_of_brokers in
  (exists d, r = Return d /\ well_formed d = true)
  /\ is_error r = false
  /\ (exists recommended maximum,
         int_field r "Recommended Max Partitions per Cluster"
         = Some recommended
         /\ int_field r "Max Partitions per Cluster" = Some maximum
         /\ recommended <= 0 /\ maximum <= 0)
  /\ (startswith instance_type "express." = false ->
        replication_factor_field r = Some number_of_brokers
        /\ int_field r "Minimum In-Sync Replicas" = Some number_of_brokers).
Proof.
  intros Hin Hn r.
  apply contains_get in Hin. destruct Hin as [specs Hspecs].
  destruct (partitions_positive _ _ Hspecs) as [Hrec Hmax].
  subst r. split; [| split; [| split]].
  - apply (found_returns _ _ _ specs Hspecs).
  - apply (found_not_error _ _ _ specs Hspecs).
  - do 2 eexists.
    split; [apply found_recommended_cluster_partitions, Hspecs |].
    split; [apply found_max_cluster_partitions, Hspecs |].
    split; nia.
  - intros Hstd. fold (is_express_cluster instance_type) in Hstd.
    rewrite (found_replication_factor _ _ _ specs Hspecs), Hstd.
    rewrite (found_min_insync_replicas _ _ _ specs Hspecs).
    rewrite (proj2 (replication_factor_spec number_of_brokers)) by lia.
    rewrite (proj2 (min_insync_replicas_spec number_of_brokers)) by lia.
    split; reflexivity.
Qed.

Lemma nonpositive_count_accepted_witness :
  let r := get_cluster_best_practices INSTANCE_SPECS "kafka.m5.large" (-3) in
  contains INSTANCE_SPECS "kafka.m5.large" = true
  /\ -3 <= 0
  /\ is_error r = false
  /\ int_field r "Recommended Max Partitions per Cluster" = Some (-3000)
  /\ int_field r "Max Partitions per Cluster" = Some (-4500)
  /\ replication_factor_field r = Some (-3)
  /\ int_field r "Minimum In-Sync Replicas" = Some (-3).
Proof.
  intros r.
  split; [reflexivity |]. split; [lia |].
  destruct (nonpositive_count_accepted "kafka.m5.large" (-3) eq_refl
              ltac:(lia)) as (_ & Herr & _ & Hstd).
  destruct (Hstd eq_refl) as [Hrf Hisr].
  split; [exact Herr |].
  split; [reflexivity |]. split; [reflexivity |].
  split; [exact Hrf | exact Hisr].
Defined.

(** ** Replication invariant *)

(** C10. In every result for a key of the table, at every integer broker
    count, the returned minimum in-sync replicas is at most the returned
    replication factor, the express override included. *)
Theorem min_insync_replicas_le_replication_factor
    (instance_type : string) (number_of_brokers : Z) :
  contains INSTANCE_SPECS instance_type = true ->
  let r := get_cluster_best_practices INSTANCE_SPECS instance_type
             number_of_brokers in
  exists factor insync,
    replication_factor_field r = Some factor
    /\ int_field r "Minimum In-Sync Replicas" = Some insync
    /\ insync <= factor.
Proof.
  intros Hin r.
  apply contains_get in Hin. destruct Hin as [specs Hspecs].
  subst r. do 2 eexists.
  split; [apply (found_replication_factor _ _ _ specs Hspecs) |].
  split; [apply (found_min_insync_replicas _ _ _ specs Hspecs) |].
  destruct (replication_factor_spec number_of_brokers) as [Hge Hlt].
  destruct (min_insync_replicas_spec number_of_brokers) as [Hge' Hlt'].
  destruct (is_express_cluster instance_type);
    destruct (Z_le_gt_dec 3 number_of_brokers);
    rewrite ?Hge, ?Hge', ?Hlt, ?Hlt' by lia; lia.
Qed.

Lemma min_insync_replicas_le_replication_factor_witness :
  contains INSTANCE_SPECS "express.m7g.large" = true
  /\ exists factor insync,
       replication_factor_field
         (get_cluster_best_practices INSTANCE_SPECS "express.m7g.large" 1)
       = Some factor
       /\ int_field
            (get_cluster_best_practices INSTANCE_SPECS "express.m7g.large" 1)
            "Minimum In-Sync Replicas"
          = Some insync
       /\ insync <= factor.
Proof.
  split; [reflexivity |].
  exact (min_insync_replicas_le_replication_factor "express.m7g.large" 1
           eq_refl).
Defined.


(** * Further properties of the best-practices module *)

Lemma kafka_prefix_not_express (key : string) :
  startswith key "kafka." = true -> startswith key "express." = false.
Proof.
  unfold startswith. destruct key as [| c key]; cbn [String.prefix].
  - discriminate.
  - destruct (ascii_dec "k"%char c) as [E | _]; [| discriminate].
    subst c. intros _. reflexivity.
Qed.

Lemma min_insync_replicas_min (n : Z) : min_insync_replicas n = Z.min 2 n.
Proof.
  destruct (min_insync_replicas_spec n) as [Hge Hlt].
  destruct (Z_le_gt_dec 3 n); [rewrite Hge | rewrite Hlt]; lia.
Qed.

Lemma replication_factor_min (n : Z) : replication_factor n = Z.min 3 n.
Proof.
  destruct (replication_factor_spec n) as [Hge Hlt].
  destruct (Z_le_gt_dec 3 n); [rewrite Hge | rewrite Hlt]; lia.
Qed.

Section Fields.

Variable table : spec_table.
Variable instance_type : string.
Variable number_of_brokers : Z.
Variable specs : InstanceSpec.
Hypothesis Hspecs : get table instance_type = Some specs.

#[local] Notation r :=
  (get_cluster_best_practices table instance_type number_of_brokers).

Ltac enter :=
  unfold get_cluster_best_practices, contains, getitem;
  rewrite Hspecs; cbn [negb bind].

Lemma found_instance_type :
  str_field r "Instance Type" = Some (instance_type ++ " (provided as input)").
Proof. enter. reflexivity. Qed.

Lemma found_number_of_brokers :
  leading_int r "Number of Brokers" = Some number_of_brokers.
Proof.
  unfold leading_int. enter.
  change (parse_int (first_word (str number_of_brokers
                                 ++ String " " "(provided as input)"))
          = Some number_of_brokers).
  rewrite first_word_str. apply parse_int_str.
Qed.

Lemma found_vCPU : int_field r "vCPU per Broker" = Some (vCPU specs).
Proof. enter. reflexivity. Qed.

Lemma found_partitions_recommended :
  int_field r "Recommended Partitions per Broker"
  = Some (Partitions_per_Broker_Recommended specs).
Proof. enter. reflexivity. Qed.

Lemma found_partitions_max :
  leading_int r "Max Partitions per Broker"
  = Some (Partitions_per_Broker_Max specs).
Proof.
  assert (exists rest,
             str_field r "Max Partitions per Broker"
             = Some (str (Partitions_per_Broker_Max specs)
                     ++ String " " rest)) as [rest E].
  { enter. eexists. reflexivity. }
  unfold leading_int. rewrite E, first_word_str. apply parse_int_str.
Qed.

Lemma found_guidelines :
  str_field r "CPU Utilization Guidelines"
  = Some "Keep below 60% regularly; never exceed 70%."
  /\ str_field r "Disk Utilization Guidelines"
     = Some "Warning at 85%, critical at 90%."
  /\ int_field r "Under-Replicated Partitions Tolerance" = Some 0
  /\ int_field r "Leader Imbalance Tolerance (%)" = Some 10.
Proof. enter. repeat split; reflexivity. Qed.

End Fields.


(** X2. A recommendation echoes its inputs: the "Instance Type" entry is
    the identifier followed by " (provided as input)", and the number that
    the "Number of Brokers" entry starts with is the broker count, negative
    counts included. *)
Theorem recommendation_echoes_inputs
    (table : spec_table) (instance_type : string) (number_of_brokers : Z) :
  contains table instance_type = true ->
  let r := get_cluster_best_practices table instance_type
             number_of_brokers in
  str_field r "Instance Type" = Some (instance_type ++ " (provided as input)")
  /\ str_field r "Number of Brokers"
     = Some (str number_of_brokers ++ " (provided as input)")
  /\ leading_int r "Number of Brokers" = Some number_of_brokers.
Proof.
  intros Hin r. apply contains_get in Hin. destruct Hin as [specs Hspecs].
  subst r. split; [| split].
  - apply (found_instance_type _ _ _ specs Hspecs).
  - unfold get_cluster_best_practices, contains, getitem.
    rewrite Hspecs. reflexivity.
  - apply (found_number_of_brokers _ _ _ specs Hspecs).
Qed.

Lemma recommendation_echoes_inputs_witness :
  let r := get_cluster_best_practices INSTANCE_SPECS "kafka.m7g.xlarge" (-12) in
  contains INSTANCE_SPECS "kafka.m7g.xlarge" = true
  /\ str_field r "Instance Type" = Some "kafka.m7g.xlarge (provided as input)"
  /\ str_field r "Number of Brokers" = Some "-12 (provided as input)"
  /\ leading_int r "Number of Brokers" = Some (-12).
Proof.
  split; [reflexivity |].
  exact (recommendation_echoes_inputs INSTANCE_SPECS "kafka.m7g.xlarge" (-12)
           eq_refl).
Defined.

(** X3. A recommendation is consistent in itself: each cluster partition
    ceiling it returns is the per-broker figure it returns (the integer
    "Recommended Partitions per Broker", the number leading the text "Max
    Partitions per Broker") multiplied by the broker count it echoes. *)
Theorem ceilings_match_returned_per_broker_figures
    (table : spec_table) (instance_type : string) (number_of_brokers : Z) :
  contains table instance_type = true ->
  let r := get_cluster_best_practices table instance_type
             number_of_brokers in
  exists per_broker per_broker_max brokers,
    int_field r "Recommended Partitions per Broker" = Some per_broker
    /\ leading_int r "Max Partitions per Broker" = Some per_broker_max
    /\ leading_int r "Number of Brokers" = Some brokers
    /\ int_field r "Recommended Max Partitions per Cluster"
       = Some (per_broker * brokers)
    /\ int_field r "Max Partitions per Cluster"
       = Some (per_broker_max * brokers).
Proof.
  intros Hin r. apply contains_get in Hin. destruct Hin as [specs Hspecs].
  subst r. do 3 eexists.
  split; [apply (found_partitions_recommended _ _ _ specs Hspecs) |].
  split; [apply (found_partitions_max _ _ _ specs Hspecs) |].
  split; [apply (found_number_of_brokers _ _ _ specs Hspecs) |].
  split.
  - apply found_recommended_cluster_partitions, Hspecs.
  - apply found_max_cluster_partitions, Hspecs.
Qed.

Lemma ceilings_match_returned_per_broker_figures_witness :
  let r := get_cluster_best_practices INSTANCE_SPECS "express.m7g.2xlarge" 4 in
  contains INSTANCE_SPECS "express.m7g.2xlarge" = true
  /\ exists per_broker per_broker_max brokers,
       int_field r "Recommended Partitions per Broker" = Some per_broker
       /\ leading_int r "Max Partitions per Broker" = Some per_broker_max
       /\ leading_int r "Number of Brokers" = Some brokers
       /\ int_field r "Recommended Max Partitions per Cluster"
          = Some (per_broker * brokers)
       /\ int_field r "Max Partitions per Cluster"
          = Some (per_broker_max * brokers).
Proof.
  split; [reflexivity |].
  exact (ceilings_match_returned_per_broker_figures INSTANCE_SPECS
           "express.m7g.2xlarge" 4 eq_refl).
Defined.

Lemma INSTANCE_SPECS_recommended_le_max :
  Forall (fun entry =>
            Partitions_per_Broker_Recommended (snd entry)
            <= Partitions_per_Broker_Max (snd entry))
         INSTANCE_SPECS.
Proof.
  unfold INSTANCE_SPECS.
  repeat (constructor; [cbn; lia |]). constructor.
Qed.

(** X4. For every key of the module's table the recommended cluster
    partition ceiling does not exceed the max ceiling when the broker count
    is not negative; under a negative count the order is reversed. *)
Theorem recommended_ceiling_le_max_ceiling
    (instance_type : string) (number_of_brokers : Z) :
  contains INSTANCE_SPECS instance_type = true ->
  let r := get_cluster_best_practices INSTANCE_SPECS instance_type
             number_of_brokers in
  exists recommended maximum,
    int_field r "Recommended Max Partitions per Cluster" = Some recommended
    /\ int_field r "Max Partitions per Cluster" = Some maximum
    /\ (0 <= number_of_brokers -> recommended <= maximum)
    /\ (number_of_brokers <= 0 -> maximum <= recommended).
Proof.
  intros Hin r. apply contains_get in Hin. destruct Hin as [specs Hspecs].
  assert (Hle : Partitions_per_Broker_Recommended specs
                <= Partitions_per_Broker_Max specs).
  { apply get_In in Hspecs.
    exact (proj1 (Forall_forall _ _) INSTANCE_SPECS_recommended_le_max _
             Hspecs). }
  subst r. do 2 eexists.
  split; [apply found_recommended_cluster_partitions, Hspecs |].
  split; [apply found_max_cluster_partitions, Hspecs |].
  split; intros; nia.
Qed.

Lemma recommended_ceiling_le_max_ceiling_witness :
  let r := get_cluster_best_practices INSTANCE_SPECS "kafka.t3.small" 7 in
  contains INSTANCE_SPECS "kafka.t3.small" = true
  /\ exists recommended maximum,
       int_field r "Recommended Max Partitions per Cluster" = Some recommended
       /\ int_field r "Max Partitions per Cluster" = Some maximum
       /\ (0 <= 7 -> recommended <= maximum)
       /\ (7 <= 0 -> maximum <= recommended).
Proof.
  split; [reflexivity |].
  exact (recommended_ceiling_le_max_ceiling "kafka.t3.small" 7 eq_refl).
Defined.

(** X5. In closed form: the returned minimum in-sync replicas is the
    smaller of 2 and the broker count for every type; the returned
    replication factor is the smaller of 3 and the broker count for a type
    without the express prefix, so that it never exceeds the broker count,
    whereas for an express type with fewer than three brokers it does. *)
Theorem replication_closed_form
    (table : spec_table) (instance_type : string) (number_of_brokers : Z) :
  contains table instance_type = true ->
  let r := get_cluster_best_practices table instance_type
             number_of_brokers in
  int_field r "Minimum In-Sync Replicas" = Some (Z.min 2 number_of_brokers)
  /\ (startswith instance_type "express." = false ->
        replication_factor_field r = Some (Z.min 3 number_of_brokers))
  /\ (startswith instance_type "express." = true ->
      number_of_brokers < 3 ->
        exists factor,
          replication_factor_field r = Some factor
          /\ number_of_brokers < factor).
Proof.
  intros Hin r. apply contains_get in Hin. destruct Hin as [specs Hspecs].
  subst r. fold (is_express_cluster instance_type).
  rewrite (found_min_insync_replicas _ _ _ specs Hspecs).
  rewrite (found_replication_factor _ _ _ specs Hspecs).
  rewrite min_insync_replicas_min, replication_factor_min.
  split; [reflexivity |]. split.
  - intros ->. reflexivity.
  - intros -> Hlt. exists 3. split; [reflexivity | lia].
Qed.

Lemma replication_closed_form_witness :
  let r := get_cluster_best_practices INSTANCE_SPECS "express.m7g.large" 2 in
  contains INSTANCE_SPECS "express.m7g.large" = true
  /\ int_field r "Minimum In-Sync Replicas" = Some 2
  /\ exists factor, replication_factor_field r = Some factor /\ 2 < factor.
Proof.
  split; [reflexivity |].
  destruct (replication_closed_form INSTANCE_SPECS "express.m7g.large" 2
              eq_refl) as (Hisr & _ & Hexpress).
  split; [exact Hisr |].
  exact (Hexpress eq_refl ltac:(lia)).
Defined.

(** X6. For a fixed key, adding brokers never lowers the returned
    replication factor nor the returned minimum in-sync replicas. *)
Theorem replication_monotone
    (table : spec_table) (instance_type : string) (n m : Z) :
  contains table instance_type = true ->
  n <= m ->
  exists factor factor' insync insync',
    replication_factor_field (get_cluster_best_practices table instance_type n)
    = Some factor
    /\ replication_factor_field
         (get_cluster_best_practices table instance_type m)
       = Some factor'
    /\ int_field (get_cluster_best_practices table instance_type n)
         "Minimum In-Sync Replicas" = Some insync
    /\ int_field (get_cluster_best_practices table instance_type m)
         "Minimum In-Sync Replicas" = Some insync'
    /\ factor <= factor' /\ insync <= insync'.
Proof.
  intros Hin Hle. apply contains_get in Hin. destruct Hin as [specs Hspecs].
  do 4 eexists.
  split; [apply (found_replication_factor _ _ _ specs Hspecs) |].
  split; [apply (found_replication_factor _ _ _ specs Hspecs) |].
  split; [apply (found_min_insync_replicas _ _ _ specs Hspecs) |].
  split; [apply (found_min_insync_replicas _ _ _ specs Hspecs) |].
  rewrite !min_insync_replicas_min, !replication_factor_min.
  destruct (is_express_cluster instance_type); lia.
Qed.

Lemma replication_monotone_witness :
  contains INSTANCE_SPECS "kafka.m5.large" = true
  /\ 2 <= 5
  /\ exists factor factor' insync insync',
       replication_factor_field
         (get_cluster_best_practices INSTANCE_SPECS "kafka.m5.large" 2)
       = Some factor
       /\ replication_factor_field
            (get_cluster_best_practices INSTANCE_SPECS "kafka.m5.large" 5)
          = Some factor'
       /\ int_field (get_cluster_best_practices INSTANCE_SPECS "kafka.m5.large" 2)
            "Minimum In-Sync Replicas" = Some insync
       /\ int_field (get_cluster_best_practices INSTANCE_SPECS "kafka.m5.large" 5)
            "Minimum In-Sync Replicas" = Some insync'
       /\ factor <= factor' /\ insync <= insync'.
Proof.
  split; [reflexivity |]. split; [lia |].
  apply (replication_monotone INSTANCE_SPECS "kafka.m5.large" 2 5);
    [reflexivity | lia].
Defined.

(** ** The catalog and the calculator together *)

Lemma get_map_values {V W} (g : V -> W) (d : list (string * V)) (k : string) :
  get (map (fun entry => (fst entry, g (snd entry))) d) k
  = option_map g (get d k).
Proof.
  induction d as [| [k' v] d IH]; simpl.
  - reflexivity.
  - destruct (String.eqb k' k); [reflexivity | exact IH].
Qed.

Lemma instance_specs_entry_get (table : spec_table) (key : string) :
  instance_specs_entry (best_practices table) key
  = option_map (fun specs => VDict (spec_dict specs)) (get table key).
Proof.
  unfold instance_specs_entry, best_practices; cbn [member get String.eqb
    Ascii.eqb Bool.eqb].
  apply (get_map_values (fun specs => VDict (spec_dict specs))).
Qed.

(** X7. Looking an identifier up under "instance_specs" in the catalog
    document gives the dictionary of the table's entry for it, and nothing
    when the table has no such key: the catalog carries the table as it
    is. *)
Theorem catalog_instance_specs_lookup (table : spec_table) (key : string) :
  instance_specs_entry (best_practices table) key
  = option_map (fun specs => VDict (spec_dict specs)) (get table key).
Proof.
  unfold instance_specs_entry, best_practices.
  cbn [member get String.eqb Ascii.eqb Bool.eqb].
  induction table as [| [k specs] rest IH]; cbn [map get fst snd].
  - reflexivity.
  - destruct (String.eqb k key); [reflexivity | exact IH].
Qed.

(** X8. Whatever the table holds, no identifier is listed under both
    categories of the catalog, and a key that starts with neither "kafka."
    nor "express." is listed under neither although "instance_specs" still
    has its entry. *)
Theorem categories_disjoint_and_partial (table : spec_table) :
  exists standard express,
    category (best_practices table) "standard" = Some standard
    /\ category (best_practices table) "express" = Some express
    /\ (forall key, ~ (In key standard /\ In key express))
    /\ (forall key,
          In key (keys table) ->
          startswith key "kafka." = false ->
          startswith key "express." = false ->
          ~ In key standard /\ ~ In key express
          /\ instance_specs_entry (best_practices table) key <> None).
Proof.
  do 2 eexists.
  split; [apply category_standard |]. split; [apply category_express |].
  split.
  - intros key [Hs He].
    apply (filter_In (fun k => startswith k "kafka.")) in Hs.
    apply (filter_In (fun k => startswith k "express.")) in He.
    destruct Hs as [_ Hs], He as [_ He].
    rewrite (kafka_prefix_not_express _ Hs) in He. discriminate.
  - intros key Hin Hs He. split; [| split].
    + intros H. apply (filter_In (fun k => startswith k "kafka.")) in H.
      destruct H as [_ H]. congruence.
    + intros H. apply (filter_In (fun k => startswith k "express.")) in H.
      destruct H as [_ H]. congruence.
    + rewrite instance_specs_entry_get.
      apply contains_keys, contains_get in Hin. destruct Hin as [specs ->].
      discriminate.
Qed.

(** X9. The catalog's categories tell what the calculator does: for an
    identifier listed under "express" the returned replication factor is 3
    at every broker count, and for one listed under "standard" it is the
    smaller of 3 and the broker count. *)
Theorem categories_predict_replication_factor
    (table : spec_table) (number_of_brokers : Z) :
  exists standard express,
    category (best_practices table) "standard" = Some standard
    /\ category (best_practices table) "express" = Some express
    /\ (forall key,
          In key express ->
          replication_factor_field
            (get_cluster_best_practices table key number_of_brokers)
          = Some 3)
    /\ (forall key,
          In key standard ->
          replication_factor_field
            (get_cluster_best_practices table key number_of_brokers)
          = Some (Z.min 3 number_of_brokers)).
Proof.
  do 2 eexists.
  split; [apply category_standard |]. split; [apply category_express |].
  split.
  - intros key H. apply (filter_In (fun k => startswith k "express.")) in H.
    destruct H as [Hin He].
    apply contains_keys, contains_get in Hin. destruct Hin as [specs Hspecs].
    rewrite (found_replication_factor _ _ _ specs Hspecs).
    unfold is_express_cluster. rewrite He. reflexivity.
  - intros key H. apply (filter_In (fun k => startswith k "kafka.")) in H.
    destruct H as [Hin Hs].
    apply contains_keys, contains_get in Hin. destruct Hin as [specs Hspecs].
    rewrite (found_replication_factor _ _ _ specs Hspecs).
    unfold is_express_cluster. rewrite (kafka_prefix_not_express _ Hs).
    rewrite replication_factor_min. reflexivity.
Qed.

(** X10. The guideline texts and the two tolerances that a recommendation
    returns are the ones the catalog publishes under "thresholds", whatever
    the instance type and the broker count. *)
Theorem guidelines_agree_with_catalog
    (table : spec_table) (instance_type : string) (number_of_brokers : Z) :
  contains table instance_type = true ->
  let r := get_cluster_best_practices table instance_type
             number_of_brokers in
  let doc := best_practices table in
  option_map VStr (str_field r "CPU Utilization Guidelines")
  = threshold doc "cpu_utilization" "description"
  /\ option_map VStr (str_field r "Disk Utilization Guidelines")
     = threshold doc "disk_utilization" "description"
  /\ option_map VInt (int_field r "Under-Replicated Partitions Tolerance")
     = threshold doc "under_replicated_partitions" "tolerance"
  /\ option_map VInt (int_field r "Leader Imbalance Tolerance (%)")
     = threshold doc "leader_imbalance" "tolerance_percent".
Proof.
  intros Hin r doc. apply contains_get in Hin. destruct Hin as [specs Hspecs].
  destruct (found_guidelines _ _ number_of_brokers specs Hspecs)
    as (Hcpu & Hdisk & Hurp & Hleader).
  subst r doc. rewrite Hcpu, Hdisk, Hurp, Hleader.
  repeat split; reflexivity.
Qed.

Lemma guidelines_agree_with_catalog_witness :
  let r := get_cluster_best_practices INSTANCE_SPECS "kafka.m5.4xlarge" 9 in
  let doc := best_practices INSTANCE_SPECS in
  contains INSTANCE_SPECS "kafka.m5.4xlarge" = true
  /\ option_map VStr (str_field r "CPU Utilization Guidelines")
     = threshold doc "cpu_utilization" "description"
  /\ option_map VStr (str_field r "Disk Utilization Guidelines")
     = threshold doc "disk_utilization" "description"
  /\ option_map VInt (int_field r "Under-Replicated Partitions Tolerance")
     = threshold doc "under_replicated_partitions" "tolerance"
  /\ option_map VInt (int_field r "Leader Imbalance Tolerance (%)")
     = threshold doc "leader_imbalance" "tolerance_percent".
Proof.
  split; [reflexivity |].
  exact (guidelines_agree_with_catalog INSTANCE_SPECS "kafka.m5.4xlarge" 9
           eq_refl).
Defined.

(** X11. From the catalog's recommended replication factor on, the
    calculator returns the catalog's replication thresholds: with at least
    that many brokers the returned replication factor and minimum in-sync
    replicas are the catalog's "recommended_factor" and
    "min_insync_replicas", for express and standard types alike. *)
Theorem replication_thresholds_apply
    (table : spec_table) (instance_type : string) (number_of_brokers : Z) :
  contains table instance_type = true ->
  exists factor insync,
    threshold (best_practices table) "replication" "recommended_factor"
    = Some (VInt factor)
    /\ threshold (best_practices table) "replication" "min_insync_replicas"
       = Some (VInt insync)
    /\ (factor <= number_of_brokers ->
          let r := get_cluster_best_practices table instance_type
                     number_of_brokers in
          replication_factor_field r = Some factor
          /\ int_field r "Minimum In-Sync Replicas" = Some insync).
Proof.
  intros Hin. apply contains_get in Hin. destruct Hin as [specs Hspecs].
  exists RECOMMENDED_REPLICATION_FACTOR, RECOMMENDED_MIN_INSYNC_REPLICAS.
  split; [reflexivity |]. split; [reflexivity |].
  intros Hge r. subst r.
  rewrite (found_replication_factor _ _ _ specs Hspecs).
  rewrite (found_min_insync_replicas _ _ _ specs Hspecs).
  unfold RECOMMENDED_REPLICATION_FACTOR in Hge.
  rewrite (proj1 (replication_factor_spec number_of_brokers) Hge).
  rewrite (proj1 (min_insync_replicas_spec number_of_brokers) Hge).
  destruct (is_express_cluster instance_type); split; reflexivity.
Qed.

Lemma replication_thresholds_apply_witness :
  contains INSTANCE_SPECS "express.m7g.16xlarge" = true
  /\ exists factor insync,
       threshold (best_practices INSTANCE_SPECS) "replication"
         "recommended_factor" = Some (VInt factor)
       /\ threshold (best_practices INSTANCE_SPECS) "replication"
            "min_insync_replicas" = Some (VInt insync)
       /\ (factor <= 3 ->
             let r := get_cluster_best_practices INSTANCE_SPECS
                        "express.m7g.16xlarge" 3 in
             replication_factor_field r = Some factor
             /\ int_field r "Minimum In-Sync Replicas" = Some insync).
Proof.
  split; [reflexivity |].
  exact (replication_thresholds_apply INSTANCE_SPECS "express.m7g.16xlarge" 3
           eq_refl).
Defined.

(** X12. The per-broker figures of a recommendation are those of the
    catalog: for a key of the table, the "vCPU" and "Partitions per Broker
    Recommended" of its catalog entry are the recommendation's "vCPU per
    Broker" and "Recommended Partitions per Broker", and the catalog's
    "Partitions per Broker Max" is the number leading the recommendation's
    "Max Partitions per Broker". *)
Theorem recommendation_agrees_with_catalog_entry
    (table : spec_table) (instance_type : string) (number_of_brokers : Z) :
  contains table instance_type = true ->
  let r := get_cluster_best_practices table instance_type
             number_of_brokers in
  exists entry cpus per_broker per_broker_max,
    instance_specs_entry (best_practices table) instance_type = Some entry
    /\ member entry "vCPU" = Some (VInt cpus)
    /\ member entry "Partitions per Broker Recommended"
       = Some (VInt per_broker)
    /\ member entry "Partitions per Broker Max" = Some (VInt per_broker_max)
    /\ int_field r "vCPU per Broker" = Some cpus
    /\ int_field r "Recommended Partitions per Broker" = Some per_broker
    /\ leading_int r "Max Partitions per Broker" = Some per_broker_max.
Proof.
  intros Hin r. apply contains_get in Hin. destruct Hin as [specs Hspecs].
  subst r. do 4 eexists.
  split; [rewrite instance_specs_entry_get, Hspecs; reflexivity |].
  split; [reflexivity |]. split; [reflexivity |]. split; [reflexivity |].
  split; [apply (found_vCPU _ _ _ specs Hspecs) |].
  split; [apply (found_partitions_recommended _ _ _ specs Hspecs) |].
  apply (found_partitions_max _ _ _ specs Hspecs).
Qed.

Lemma recommendation_agrees_with_catalog_entry_witness :
  let r := get_cluster_best_practices INSTANCE_SPECS "kafka.m5.24xlarge" 6 in
  contains INSTANCE_SPECS "kafka.m5.24xlarge" = true
  /\ exists entry cpus per_broker per_broker_max,
       instance_specs_entry (best_practices INSTANCE_SPECS)
         "kafka.m5.24xlarge" = Some entry
       /\ member entry "vCPU" = Some (VInt cpus)
       /\ member entry "Partitions per Broker Recommended"
          = Some (VInt per_broker)
       /\ member entry "Partitions per Broker Max"
          = Some (VInt per_broker_max)
       /\ int_field r "vCPU per Broker" = Some cpus
       /\ int_field r "Recommended Partitions per Broker" = Some per_broker
       /\ leading_int r "Max Partitions per Broker" = Some per_broker_max.
Proof.
  split; [reflexivity |].
  exact (recommendation_agrees_with_catalog_entry INSTANCE_SPECS
           "kafka.m5.24xlarge" 6 eq_refl).
Defined.

Lemma categories_disjoint_and_partial_witness :
  let specs := mkSpec 2 8 (Flt 10 0) (Flt 4 8) (Flt 7 2) (Flt 9 6) (Flt 18 0)
                 1000 1500 in
  let table := [ ("kafka.a", specs); ("custom.b", specs);
                 ("express.c", specs) ] in
  category (best_practices table) "standard" = Some [ "kafka.a" ]
  /\ category (best_practices table) "express" = Some [ "express.c" ]
  /\ instance_specs_entry (best_practices table) "custom.b" <> None.
Proof.
  intros specs table.
  destruct (categories_disjoint_and_partial table)
    as (standard & express & _ & _ & _ & Hpartial).
  split; [reflexivity |]. split; [reflexivity |].
  apply (Hpartial "custom.b"); [right; left; reflexivity | reflexivity ..].
Defined.

(** * Properties of the cluster read tools *)

Module ToolsFacts.

Import Tools.

Section Effects.

Context {World : Type}.

Lemma bind_ret_run {A} (m : M World A) (w : World) :
  bind m (fun a => ret a) w = m w.
Proof.
  unfold bind, ret. destruct (m w) as [w' [a | e]]; reflexivity.
Qed.

Lemma bind_store_guarded {B}
    (result : list (string * obj)) (key : string) (call : M World obj)
    (k : list (string * obj) -> M World B) (w : World) :
  bind (store_guarded result key call) k w
  = k (setitem result key (guarded_value (snd (call w)))) (fst (call w)).
Proof.
  unfold store_guarded, try_except, bind, ret.
  destruct (call w) as [w' [v | e]]; reflexivity.
Qed.

Lemma get_compatible_kafka_versions_run
    (client : Client World) (cluster_arn : obj) (w : World) :
  get_compatible_kafka_versions cluster_arn (Some client) w
  = client_get_compatible_kafka_versions client
      (if truthy cluster_arn then [ ("ClusterArn", cluster_arn) ] else []) w.
Proof.
  unfold get_compatible_kafka_versions.
  rewrite bind_ret_run. destruct (truthy cluster_arn); reflexivity.
Qed.

Lemma list_cluster_operations_run
    (client : Client World) (cluster_arn max_results next_token : obj)
    (w : World) :
  list_cluster_operations cluster_arn (Some client) max_results next_token w
  = client_list_cluster_operations_v2 client
      ([ ("ClusterArn", cluster_arn); ("MaxResults", max_results) ]
       ++ (if truthy next_token then [ ("NextToken", next_token) ] else []))%list
      w.
Proof.
  unfold list_cluster_operations.
  rewrite bind_ret_run. destruct (truthy next_token); reflexivity.
Qed.

(** Without a client both SDK functions raise the ValueError that
    points at [get_cluster_info], whatever their other arguments, and leave
    the world as it was: nothing is sent. *)
Lemma sdk_functions_require_client
    (cluster_arn max_results next_token : obj) (w : World) :
  get_compatible_kafka_versions cluster_arn None w
  = (w, Raised (ValueError client_required))
  /\ list_cluster_operations cluster_arn None max_results next_token w
     = (w, Raised (ValueError client_required)).
Proof. split; reflexivity. Qed.

(** X13. With a client, [get_compatible_kafka_versions] makes exactly the
    client's call and hands back its response or its exception and its
    world unchanged; the request carries "ClusterArn" when the ARN is
    truthy and is empty otherwise, so that [None] and the empty string ask
    the same. *)
Theorem get_compatible_kafka_versions_request
    (client : Client World) (cluster_arn : obj) (w : World) :
  get_compatible_kafka_versions cluster_arn (Some client) w
  = client_get_compatible_kafka_versions client
      (if truthy cluster_arn then [ ("ClusterArn", cluster_arn) ] else []) w
  /\ get_compatible_kafka_versions ONone (Some client) w
     = get_compatible_kafka_versions (OStr "") (Some client) w.
Proof.
  split; [| reflexivity].
  unfold get_compatible_kafka_versions, bind, ret.
  destruct (truthy cluster_arn); cbn [setitem];
    match goal with
    | |- context [client_get_compatible_kafka_versions client ?p w] =>
        destruct (client_get_compatible_kafka_versions client p w)
          as [w' [response | e]]
    end; reflexivity.
Qed.

(** X14. With a client, [list_cluster_operations] makes exactly the
    client's call and hands back its outcome unchanged; the request always
    carries "ClusterArn" and "MaxResults" as given, a falsy ARN included,
    followed by "NextToken" exactly when the token is truthy. *)
Theorem list_cluster_operations_request
    (client : Client World) (cluster_arn max_results next_token : obj)
    (w : World) :
  list_cluster_operations cluster_arn (Some client) max_results next_token w
  = client_list_cluster_operations_v2 client
      ([ ("ClusterArn", cluster_arn); ("MaxResults", max_results) ]
       ++ (if truthy next_token then [ ("NextToken", next_token) ] else []))%list
      w.
Proof.
  unfold list_cluster_operations, bind, ret.
  destruct (truthy next_token); cbn [setitem String.eqb Ascii.eqb Bool.eqb app];
    match goal with
    | |- context [client_list_cluster_operations_v2 client ?p w] =>
        destruct (client_list_cluster_operations_v2 client p w)
          as [w' [response | e]]
    end; reflexivity.
Qed.

Section Dispatch.

Variable env : Imports World.
Variables region cluster_arn : obj.
Variable kwargs : list (string * obj).

(** X15. For [info_type = "all"], once the client exists the call never
    raises: the eight sub-calls run once each in the order of the source,
    each on the world the previous one left whether or not that one
    raised, with the fixed arguments of the source (10 results and no token
    for the operations, whatever [kwargs] holds), and the answer has the
    eight keys in that order, each bound to its sub-call's response or to
    [{"error": str(e)}].  A failure to create the client is raised as it
    is. *)
Theorem get_cluster_info_all (w : World) :
  match boto3_client env region w with
  | (w0, Raised e) =>
      get_cluster_info env region cluster_arn "all" kwargs w = (w0, Raised e)
  | (w0, Ok c) =>
      let client := Some c in
      let (w1, metadata) := describe_cluster env cluster_arn client w0 in
      let (w2, brokers) := get_bootstrap_brokers env cluster_arn client w1 in
      let (w3, nodes) := list_nodes env cluster_arn client w2 in
      let (w4, versions) :=
        get_compatible_kafka_versions cluster_arn client w3 in
      let (w5, policy) := get_cluster_policy env cluster_arn client w4 in
      let (w6, operations) :=
        list_cluster_operations cluster_arn client (OInt 10) ONone w5 in
      let (w7, connections) :=
        list_client_vpc_connections env cluster_arn client
          (fst (list_client_vpc_connections_defaults env))
          (snd (list_client_vpc_connections_defaults env)) w6 in
      let (w8, secrets) :=
        list_scram_secrets env cluster_arn client
          (fst (list_scram_secrets_defaults env))
          (snd (list_scram_secrets_defaults env)) w7 in
      get_cluster_info env region cluster_arn "all" kwargs w
      = (w8,
         Ok (ODict
               [ ("metadata", guarded_value metadata);
                 ("brokers", guarded_value brokers);
                 ("nodes", guarded_value nodes);
                 ("compatible_versions", guarded_value versions);
                 ("policy", guarded_value policy);
                 ("operations", guarded_value operations);
                 ("client_vpc_connections", guarded_value connections);
                 ("scram_secrets", guarded_value secrets) ]))
  end.
Proof.
  destruct (boto3_client env region w) as [w0 [c | e]] eqn:Hclient;
    [| unfold get_cluster_info, bind; rewrite Hclient; reflexivity].
  cbv zeta. unfold get_cluster_info. unfold bind at 1. rewrite Hclient.
  change (String.eqb "all" "all") with true. cbv iota zeta.
  rewrite bind_store_guarded.
  destruct (describe_cluster env cluster_arn (Some c) w0) as [w1 o1].
  cbn [fst snd]. rewrite bind_store_guarded.
  destruct (get_bootstrap_brokers env cluster_arn (Some c) w1) as [w2 o2].
  cbn [fst snd]. rewrite bind_store_guarded.
  destruct (list_nodes env cluster_arn (Some c) w2) as [w3 o3].
  cbn [fst snd]. rewrite bind_store_guarded.
  destruct (get_compatible_kafka_versions cluster_arn (Some c) w3)
    as [w4 o4].
  cbn [fst snd]. rewrite bind_store_guarded.
  destruct (get_cluster_policy env cluster_arn (Some c) w4) as [w5 o5].
  cbn [fst snd]. rewrite bind_store_guarded.
  destruct (list_cluster_operations cluster_arn (Some c) (OInt 10) ONone w5)
    as [w6 o6].
  cbn [fst snd]. rewrite bind_store_guarded.
  destruct (list_client_vpc_connections env cluster_arn (Some c)
              (fst (list_client_vpc_connections_defaults env))
              (snd (list_client_vpc_connections_defaults env)) w6)
    as [w7 o7].
  cbn [fst snd]. rewrite bind_store_guarded.
  destruct (list_scram_secrets env cluster_arn (Some c)
              (fst (list_scram_secrets_defaults env))
              (snd (list_scram_secrets_defaults env)) w7)
    as [w8 o8].
  reflexivity.
Qed.

(** X16. When the client cannot be created, every call of
    [get_cluster_info], the guarded "all" included, and every call of
    [describe_cluster_operation_tool] raises the factory's exception, and
    no sub-call is made. *)
Theorem client_failure_propagates
    (info_type : string) (w w0 : World) (e : exception) :
  boto3_client env region w = (w0, Raised e) ->
  get_cluster_info env region cluster_arn info_type kwargs w = (w0, Raised e)
  /\ describe_cluster_operation_tool env region cluster_arn w
     = (w0, Raised e).
Proof.
  intros H.
  unfold get_cluster_info, describe_cluster_operation_tool, bind.
  rewrite H. split; reflexivity.
Qed.

(** X17. An [info_type] outside the nine served values raises ValueError
    with the message "Unsupported info_type: " followed by the value, after
    the client has been created and without any sub-call. *)
Theorem unsupported_info_type
    (info_type : string) (w w0 : World) (c : Client World) :
  ~ In info_type info_types ->
  boto3_client env region w = (w0, Ok c) ->
  get_cluster_info env region cluster_arn info_type kwargs w
  = (w0, Raised (ValueError ("Unsupported info_type: " ++ info_type))).
Proof.
  intros Hout Hclient.
  assert (Hne : forall t, In t info_types -> String.eqb info_type t = false).
  { intros t Ht. apply String.eqb_neq. intros ->. exact (Hout Ht). }
  unfold get_cluster_info, bind. rewrite Hclient.
  rewrite (Hne "all"), (Hne "metadata"), (Hne "brokers"), (Hne "nodes"),
    (Hne "compatible_versions"), (Hne "policy"), (Hne "operations"),
    (Hne "client_vpc_connections"), (Hne "scram_secrets")
    by (unfold info_types; cbn [In]; tauto).
  reflexivity.
Qed.

(** X18. For [info_type = "operations"] the request sent is built from
    [kwargs]: "MaxResults" is the value under "max_results", 10 only when
    that key is absent (a [None] stored under it is sent as it is), and
    "NextToken" is sent exactly when the value under "next_token" is
    truthy. *)
Theorem operations_request_from_kwargs
    (w w0 : World) (c : Client World) :
  boto3_client env region w = (w0, Ok c) ->
  get_cluster_info env region cluster_arn "operations" kwargs w
  = client_list_cluster_operations_v2 c
      ([ ("ClusterArn", cluster_arn);
         ("MaxResults", get_default kwargs "max_results" (OInt 10)) ]
       ++ (if truthy (get_default kwargs "next_token" ONone)
           then [ ("NextToken", get_default kwargs "next_token" ONone) ]
           else []))%list
      w0.
Proof.
  intros Hclient.
  unfold get_cluster_info. unfold bind at 1. rewrite Hclient.
  change (String.eqb "operations" "all") with false.
  change (String.eqb "operations" "metadata") with false.
  change (String.eqb "operations" "brokers") with false.
  change (String.eqb "operations" "nodes") with false.
  change (String.eqb "operations" "compatible_versions") with false.
  change (String.eqb "operations" "policy") with false.
  change (String.eqb "operations" "operations") with true.
  cbv iota zeta.
  apply list_cluster_operations_run.
Qed.

(** X19. For [info_type = "compatible_versions"] the answer is the
    client's own outcome for a request that carries the ARN when it is
    truthy: through [get_cluster_info] the missing-client error of
    [get_compatible_kafka_versions] cannot occur. *)
Theorem compatible_versions_through_dispatch
    (w w0 : World) (c : Client World) :
  boto3_client env region w = (w0, Ok c) ->
  get_cluster_info env region cluster_arn "compatible_versions" kwargs w
  = client_get_compatible_kafka_versions c
      (if truthy cluster_arn then [ ("ClusterArn", cluster_arn) ] else []) w0.
Proof.
  intros Hclient.
  unfold get_cluster_info. unfold bind at 1. rewrite Hclient.
  change (String.eqb "compatible_versions" "all") with false.
  change (String.eqb "compatible_versions" "metadata") with false.
  change (String.eqb "compatible_versions" "brokers") with false.
  change (String.eqb "compatible_versions" "nodes") with false.
  change (String.eqb "compatible_versions" "compatible_versions") with true.
  cbv iota.
  apply get_compatible_kafka_versions_run.
Qed.

(** X20. [kwargs] is read by three values of [info_type] only: for "all",
    "metadata", "brokers", "nodes", "compatible_versions" and "policy" the
    call does what it does with an empty [kwargs], so that paging arguments
    given with them are dropped without notice. *)
Theorem kwargs_ignored (info_type : string) (w : World) :
  In info_type [ "all"; "metadata"; "brokers"; "nodes";
                 "compatible_versions"; "policy" ] ->
  get_cluster_info env region cluster_arn info_type kwargs w
  = get_cluster_info env region cluster_arn info_type [] w.
Proof.
  cbn [In]. intros [<- | [<- | [<- | [<- | [<- | [<- | []]]]]]];
    reflexivity.
Qed.

End Dispatch.

End Effects.

Lemma client_failure_propagates_witness :
  let e := Exc "NoRegionError" "You must specify a region." in
  boto3_client offline_env ONone [] = ([], Raised e)
  /\ get_cluster_info offline_env ONone (OStr "arn:c") "all" [] []
     = ([], Raised e)
  /\ describe_cluster_operation_tool offline_env ONone (OStr "arn:op") []
     = ([], Raised e).
Proof.
  intros e. split; [reflexivity |]. split.
  - exact (proj1 (client_failure_propagates offline_env ONone (OStr "arn:c")
                    [] "all" [] [] e eq_refl)).
  - exact (proj2 (client_failure_propagates offline_env ONone (OStr "arn:op")
                    [] "all" [] [] e eq_refl)).
Defined.

Lemma unsupported_info_type_witness :
  ~ In "topics" info_types
  /\ boto3_client logging_env (OStr "eu-west-1") [] = ([], Ok logging_client)
  /\ get_cluster_info logging_env (OStr "eu-west-1") (OStr "arn:c") "topics"
       [] []
     = ([], Raised (ValueError "Unsupported info_type: topics")).
Proof.
  assert (Hout : ~ In "topics" info_types).
  { unfold info_types. cbn [In]. intuition discriminate. }
  split; [exact Hout |]. split; [reflexivity |].
  exact (unsupported_info_type logging_env (OStr "eu-west-1") (OStr "arn:c")
           [] "topics" [] [] logging_client Hout eq_refl).
Defined.

Lemma operations_request_from_kwargs_witness :
  let kwargs := [ ("max_results", ONone); ("next_token", OStr "") ] in
  boto3_client logging_env (OStr "eu-west-1") [] = ([], Ok logging_client)
  /\ fst (get_cluster_info logging_env (OStr "eu-west-1") (OStr "arn:c")
            "operations" kwargs [])
     = [ ("list_cluster_operations_v2",
          [ ("ClusterArn", OStr "arn:c"); ("MaxResults", ONone) ]) ].
Proof.
  intros kwargs. split; [reflexivity |].
  rewrite (operations_request_from_kwargs logging_env (OStr "eu-west-1")
             (OStr "arn:c") kwargs [] [] logging_client eq_refl).
  reflexivity.
Defined.

Lemma compatible_versions_through_dispatch_witness :
  boto3_client logging_env (OStr "eu-west-1") [] = ([], Ok logging_client)
  /\ fst (get_cluster_info logging_env (OStr "eu-west-1") (OStr "")
            "compatible_versions" [] [])
     = [ ("get_compatible_kafka_versions", []) ].
Proof.
  split; [reflexivity |].
  rewrite (compatible_versions_through_dispatch logging_env (OStr "eu-west-1")
             (OStr "") [] [] [] logging_client eq_refl).
  reflexivity.
Defined.

Lemma kwargs_ignored_witness :
  In "policy" [ "all"; "metadata"; "brokers"; "nodes";
                "compatible_versions"; "policy" ]
  /\ get_cluster_info logging_env (OStr "eu-west-1") (OStr "arn:c") "policy"
       [ ("max_results", OInt 5) ] []
     = get_cluster_info logging_env (OStr "eu-west-1") (OStr "arn:c") "policy"
         [] [].
Proof.
  assert (Hin : In "policy" [ "all"; "metadata"; "brokers"; "nodes";
                              "compatible_versions"; "policy" ]).
  { cbn [In]. do 5 right. left. reflexivity. }
  split; [exact Hin |].
  exact (kwargs_ignored logging_env (OStr "eu-west-1") (OStr "arn:c")
           [ ("max_results", OInt 5) ] "policy" [] Hin).
Defined.

End ToolsFacts.
